(** * StripeLens: the event-analysis pipeline of [main.py]

    A shallow embedding of [analyze_stripe_event] (src/main.py) and of the
    Python and JSON primitives it calls, followed by the properties of the
    pipeline.

    Conventions of the embedding:
    - a Python [str] is a [string]; its characters are the code points
      U+0000..U+00FF;
    - a value produced by [json.loads] (or received as the request body) is
      a [json]; a Python [dict] is an association list in insertion order;
    - an expression that may raise evaluates in the error monad [py];
    - the one outbound request is recorded in a trace, and the completion
      service is a function from the request to what [client.post] yields;
    - [json.loads] is a parameter of the analyzer: the properties hold for
      every decoder.  An executable decoder, [Json.loads], is provided for
      the worked examples.
    Logging has no effect on the returned value and is left out. *)

From Stdlib Require Import String Ascii List ZArith Lia Bool DecimalString.
Import ListNotations.
Open Scope string_scope.

(* ================================================================== *)
(** ** Python exceptions and the error monad *)

Module Py.

Inductive exn : Type :=
| AttributeError
| TypeError
| KeyError
| IndexError
| ValueError
| JSONDecodeError
| HTTPError.

Inductive py (A : Type) : Type :=
| Ok (a : A)
| Raise (e : exn).
Arguments Ok {A} a.
Arguments Raise {A} e.

Definition bind {A B : Type} (m : py A) (k : A -> py B) : py B :=
  match m with
  | Ok a => k a
  | Raise e => Raise e
  end.

(** [try: body / except Exception: handler] *)
Definition try_except {A : Type} (body : py A) (handler : exn -> py A) : py A :=
  match body with
  | Ok a => Ok a
  | Raise e => handler e
  end.

Definition raises {A : Type} (m : py A) : bool :=
  match m with
  | Ok _ => false
  | Raise _ => true
  end.

End Py.
Export Py.

Declare Scope py_scope.
Delimit Scope py_scope with py.
Notation "x <- m ;; k" := (Py.bind m (fun x => k))
  (at level 61, m at next level, right associativity) : py_scope.
Open Scope py_scope.

(* ================================================================== *)
(** ** Python string primitives *)

Module PyStr.

Definition chr (n : nat) : string := String (ascii_of_nat n) EmptyString.

Definition dq : string := chr 34.        (* the double quote *)
Definition sq : string := chr 39.        (* the single quote *)
Definition nl : string := chr 10.        (* line feed *)
Definition backslash : string := chr 92.
Definition backtick : ascii := ascii_of_nat 96.

Definition unlines (ls : list string) : string := String.concat nl ls.

(** [needle in haystack] on two strings: substring containment *)
Fixpoint contains (needle haystack : string) : bool :=
  match haystack with
  | EmptyString => prefix needle EmptyString
  | String _ rest => prefix needle haystack || contains needle rest
  end.

(** [x in [s1, ..., sn]] for strings *)
Definition in_list (x : string) (l : list string) : bool :=
  existsb (String.eqb x) l.

(** [str.replace(old, new)]: the occurrences of [old] are found from the
    left and do not overlap.  [skip] counts the characters of the current
    occurrence that are still to be dropped. *)
Fixpoint replace_from (old new : string) (skip : nat) (s : string) : string :=
  match s with
  | EmptyString => EmptyString
  | String c rest =>
      match skip with
      | S k => replace_from old new k rest
      | O =>
          if prefix old s
          then new ++ replace_from old new (String.length old - 1) rest
          else String c (replace_from old new 0 rest)
      end
  end.

Fixpoint intersperse (new s : string) : string :=
  match s with
  | EmptyString => new
  | String c rest => new ++ String c (intersperse new rest)
  end.

Definition replace (old new s : string) : string :=
  match old with
  | EmptyString => intersperse new s
  | _ => replace_from old new 0 s
  end.

(** [str.isspace] on one character *)
Definition is_space (c : ascii) : bool :=
  let n := nat_of_ascii c in
  (((9 <=? n) && (n <=? 13)) || ((28 <=? n) && (n <=? 32))
   || (n =? 133) || (n =? 160))%nat.

Fixpoint lstrip (s : string) : string :=
  match s with
  | EmptyString => EmptyString
  | String c rest => if is_space c then lstrip rest else s
  end.

Fixpoint rstrip (s : string) : string :=
  match s with
  | EmptyString => EmptyString
  | String c rest =>
      match rstrip rest with
      | EmptyString => if is_space c then EmptyString else String c EmptyString
      | r => String c r
      end
  end.

(** [str.strip()] *)
Definition strip (s : string) : string := rstrip (lstrip s).

Definition lower_char (c : ascii) : ascii :=
  let n := nat_of_ascii c in
  if (((65 <=? n) && (n <=? 90))
      || ((192 <=? n) && (n <=? 222) && negb (n =? 215)))%nat
  then ascii_of_nat (n + 32)%nat
  else c.

(** [str.lower()] *)
Fixpoint lower (s : string) : string :=
  match s with
  | EmptyString => EmptyString
  | String c rest => String (lower_char c) (lower rest)
  end.

Definition hex_digit (n : nat) : string :=
  match n with
  | 10%nat => "a" | 11%nat => "b" | 12%nat => "c"
  | 13%nat => "d" | 14%nat => "e" | 15%nat => "f"
  | _ => NilZero.string_of_uint (Nat.to_uint n)
  end.

Definition hex2 (n : nat) : string := hex_digit (n / 16) ++ hex_digit (n mod 16).

(** [str(n)] for an integer *)
Definition str_of_int (z : Z) : string := NilZero.string_of_int (Z.to_int z).

(** [str.isprintable] on one character *)
Definition is_printable (c : ascii) : bool :=
  let n := nat_of_ascii c in
  (((32 <=? n) && (n <=? 126)) || ((161 <=? n) && negb (n =? 173)))%nat.

Definition repr_char (quote : string) (c : ascii) : string :=
  let n := nat_of_ascii c in
  let s := String c EmptyString in
  if String.eqb s quote || String.eqb s backslash then backslash ++ s
  else if (n =? 9)%nat then backslash ++ "t"
  else if (n =? 10)%nat then backslash ++ "n"
  else if (n =? 13)%nat then backslash ++ "r"
  else if is_printable c then s
  else backslash ++ "x" ++ hex2 n.

Fixpoint repr_chars (quote : string) (s : string) : string :=
  match s with
  | EmptyString => EmptyString
  | String c rest => repr_char quote c ++ repr_chars quote rest
  end.

(** [repr(s)] for a string *)
Definition repr_str (s : string) : string :=
  let quote := if contains sq s && negb (contains dq s) then dq else sq in
  quote ++ repr_chars quote s ++ quote.

End PyStr.

(* ================================================================== *)
(** ** JSON values, Python dictionaries, [json.dumps] and a decoder *)

Module Json.
Import PyStr.

(** The Python values that [json.loads] produces.  A [float] is carried by
    its [repr] text; a [dict] keeps its items in insertion order. *)
Unset Elimination Schemes.
Inductive json : Type :=
| JNull
| JBool (b : bool)
| JInt (z : Z)
| JFloat (repr : string)
| JStr (s : string)
| JList (items : list json)
| JObj (fields : list (string * json)).
Set Elimination Schemes.

Definition dict : Type := list (string * json).

(** [d.get(k)] *)
Fixpoint dict_get (k : string) (d : dict) : option json :=
  match d with
  | [] => None
  | (k', v) :: rest => if String.eqb k k' then Some v else dict_get k rest
  end.

(** [k in d] *)
Definition dict_mem (k : string) (d : dict) : bool :=
  match dict_get k d with
  | Some _ => true
  | None => false
  end.

(** [d[k] = v]: an existing key keeps its place, a new key goes last *)
Fixpoint dict_set (k : string) (v : json) (d : dict) : dict :=
  match d with
  | [] => [(k, v)]
  | (k', v') :: rest =>
      if String.eqb k k' then (k', v) :: rest else (k', v') :: dict_set k v rest
  end.

Definition dict_keys (d : dict) : list string := map fst d.

(** [dict(pairs)]: a repeated key keeps its first place and its last value *)
Definition dict_of_pairs (pairs : list (string * json)) : dict :=
  fold_left (fun d kv => dict_set (fst kv) (snd kv) d) pairs [].

(** A field of a returned value, when the value is a dictionary *)
Definition field (k : string) (v : json) : option json :=
  match v with
  | JObj d => dict_get k d
  | _ => None
  end.

(** *** [repr] and [str] of a value *)

Fixpoint repr (v : json) : string :=
  match v with
  | JNull => "None"
  | JBool true => "True"
  | JBool false => "False"
  | JInt z => str_of_int z
  | JFloat r => r
  | JStr s => repr_str s
  | JList items => "[" ++ String.concat ", " (map repr items) ++ "]"
  | JObj fields =>
      "{" ++ String.concat ", "
               (map (fun kv => match kv with
                               | (k, x) => repr_str k ++ ": " ++ repr x
                               end) fields)
          ++ "}"
  end.

(** [str(v)], which is what an f-string field [{v}] renders *)
Definition str (v : json) : string :=
  match v with
  | JStr s => s
  | _ => repr v
  end.

(** *** [json.dumps(v, indent=2)] *)

Definition escape_char (c : ascii) : string :=
  let n := nat_of_ascii c in
  if (n =? 34)%nat then backslash ++ dq
  else if (n =? 92)%nat then backslash ++ backslash
  else if (n =? 10)%nat then backslash ++ "n"
  else if (n =? 13)%nat then backslash ++ "r"
  else if (n =? 9)%nat then backslash ++ "t"
  else if (n =? 8)%nat then backslash ++ "b"
  else if (n =? 12)%nat then backslash ++ "f"
  else if ((32 <=? n) && (n <=? 126))%nat then String c EmptyString
  else backslash ++ "u00" ++ hex2 n.

Fixpoint escape_chars (s : string) : string :=
  match s with
  | EmptyString => EmptyString
  | String c rest => escape_char c ++ escape_chars rest
  end.

Definition encode_str (s : string) : string := dq ++ escape_chars s ++ dq.

Definition encode_float (r : string) : string :=
  if String.eqb r "nan" then "NaN"
  else if String.eqb r "inf" then "Infinity"
  else if String.eqb r "-inf" then "-Infinity"
  else r.

Fixpoint spaces (n : nat) : string :=
  match n with
  | O => EmptyString
  | S k => " " ++ spaces k
  end.

Definition newline_indent (level : nat) : string := nl ++ spaces (2 * level).

Fixpoint dumps_at (level : nat) (v : json) : string :=
  match v with
  | JNull => "null"
  | JBool true => "true"
  | JBool false => "false"
  | JInt z => str_of_int z
  | JFloat r => encode_float r
  | JStr s => encode_str s
  | JList [] => "[]"
  | JList items =>
      "[" ++ newline_indent (S level)
          ++ String.concat ("," ++ newline_indent (S level))
               (map (dumps_at (S level)) items)
          ++ newline_indent level ++ "]"
  | JObj [] => "{}"
  | JObj fields =>
      "{" ++ newline_indent (S level)
          ++ String.concat ("," ++ newline_indent (S level))
               (map (fun kv => match kv with
                               | (k, x) => encode_str k ++ ": " ++ dumps_at (S level) x
                               end) fields)
          ++ newline_indent level ++ "}"
  end.

Definition dumps_indent2 (v : json) : string := dumps_at 0 v.

(** *** An executable decoder

    [loads] follows the grammar of [json.loads] (strict mode): white space
    is space, tab, line feed and carriage return; a string holds no raw
    control character; a repeated key keeps its last value.  It covers the
    documents of the model: a number with a fraction or an exponent, the
    constants NaN and Infinity, and an escape above U+00FF are outside it
    and are answered by [None], like a malformed document. *)

Inductive token : Type :=
| TLBrace | TRBrace | TLBrack | TRBrack | TColon | TComma
| TString (s : string)
| TNumber (lexeme : string)
| TWord (w : string).

Inductive lex_state : Type :=
| Idle
| InString (acc : string)
| InEscape (acc : string)
| InUnicode (acc : string) (digits : list nat)
| InNumber (acc : string)
| InWord (acc : string).

Definition snoc (s : string) (c : ascii) : string := s ++ String c EmptyString.

Definition is_json_space (n : nat) : bool :=
  ((n =? 32) || (n =? 9) || (n =? 10) || (n =? 13))%nat.

Definition is_digit (n : nat) : bool := ((48 <=? n) && (n <=? 57))%nat.

Definition is_number_char (n : nat) : bool :=
  (is_digit n || (n =? 45) || (n =? 43) || (n =? 46) || (n =? 101) || (n =? 69))%nat.

Definition is_letter (n : nat) : bool :=
  (((65 <=? n) && (n <=? 90)) || ((97 <=? n) && (n <=? 122)))%nat.

Definition hex_value (n : nat) : option nat :=
  if is_digit n then Some (n - 48)%nat
  else if ((97 <=? n) && (n <=? 102))%nat then Some (n - 87)%nat
  else if ((65 <=? n) && (n <=? 70))%nat then Some (n - 55)%nat
  else None.

(** One character read outside any token *)
Definition idle_step (c : ascii) : option (lex_state * list token) :=
  let n := nat_of_ascii c in
  if is_json_space n then Some (Idle, [])
  else if (n =? 123)%nat then Some (Idle, [TLBrace])
  else if (n =? 125)%nat then Some (Idle, [TRBrace])
  else if (n =? 91)%nat then Some (Idle, [TLBrack])
  else if (n =? 93)%nat then Some (Idle, [TRBrack])
  else if (n =? 58)%nat then Some (Idle, [TColon])
  else if (n =? 44)%nat then Some (Idle, [TComma])
  else if (n =? 34)%nat then Some (InString EmptyString, [])
  else if (is_digit n || (n =? 45))%nat then Some (InNumber (String c EmptyString), [])
  else if is_letter n then Some (InWord (String c EmptyString), [])
  else None.

Definition escape_step (acc : string) (c : ascii) : option (lex_state * list token) :=
  let n := nat_of_ascii c in
  let put (m : nat) := Some (InString (acc ++ chr m), []) in
  if ((n =? 34) || (n =? 92) || (n =? 47))%nat then put n
  else if (n =? 98)%nat then put 8%nat
  else if (n =? 102)%nat then put 12%nat
  else if (n =? 110)%nat then put 10%nat
  else if (n =? 114)%nat then put 13%nat
  else if (n =? 116)%nat then put 9%nat
  else if (n =? 117)%nat then Some (InUnicode acc [], [])
  else None.

Definition unicode_step (acc : string) (digits : list nat) (c : ascii)
  : option (lex_state * list token) :=
  match hex_value (nat_of_ascii c) with
  | None => None
  | Some h =>
      match digits with
      | [d1; d2; d3] =>
          let code := (((d1 * 16 + d2) * 16 + d3) * 16 + h)%nat in
          if (code <? 256)%nat then Some (InString (acc ++ chr code), []) else None
      | _ => Some (InUnicode acc (digits ++ [h])%list, [])
      end
  end.

Definition step (st : lex_state) (c : ascii) : option (lex_state * list token) :=
  let n := nat_of_ascii c in
  match st with
  | Idle => idle_step c
  | InString acc =>
      if (n =? 34)%nat then Some (Idle, [TString acc])
      else if (n =? 92)%nat then Some (InEscape acc, [])
      else if (n <? 32)%nat then None
      else Some (InString (snoc acc c), [])
  | InEscape acc => escape_step acc c
  | InUnicode acc digits => unicode_step acc digits c
  | InNumber acc =>
      if is_number_char n then Some (InNumber (snoc acc c), [])
      else match idle_step c with
           | Some (st', ts) => Some (st', TNumber acc :: ts)
           | None => None
           end
  | InWord acc =>
      if is_letter n then Some (InWord (snoc acc c), [])
      else match idle_step c with
           | Some (st', ts) => Some (st', TWord acc :: ts)
           | None => None
           end
  end.

Fixpoint lex (st : lex_state) (s : string) : option (list token) :=
  match s with
  | EmptyString =>
      match st with
      | Idle => Some []
      | InNumber acc => Some [TNumber acc]
      | InWord acc => Some [TWord acc]
      | _ => None
      end
  | String c rest =>
      match step st c with
      | Some (st', ts) =>
          match lex st' rest with
          | Some more => Some (ts ++ more)%list
          | None => None
          end
      | None => None
      end
  end.

Fixpoint digits_value (acc : Z) (s : string) : option Z :=
  match s with
  | EmptyString => Some acc
  | String c rest =>
      let n := nat_of_ascii c in
      if is_digit n then digits_value (10 * acc + Z.of_nat (n - 48))%Z rest else None
  end.

(** An integer literal: an optional minus sign, then a single zero or a
    digit string that does not start with zero *)
Definition natural_literal (s : string) : option Z :=
  match s with
  | EmptyString => None
  | String c rest =>
      if (nat_of_ascii c =? 48)%nat
      then match rest with EmptyString => Some 0%Z | _ => None end
      else digits_value 0 s
  end.

Definition int_literal (s : string) : option Z :=
  match s with
  | String c rest =>
      if (nat_of_ascii c =? 45)%nat
      then option_map Z.opp (natural_literal rest)
      else natural_literal s
  | EmptyString => None
  end.

Section Parser.
Variable parse_value : list token -> option (json * list token).

Fixpoint parse_items (fuel : nat) (ts : list token) (acc : list json)
  : option (list json * list token) :=
  match fuel with
  | O => None
  | S f =>
      match parse_value ts with
      | Some (v, TComma :: r) => parse_items f r (v :: acc)
      | Some (v, TRBrack :: r) => Some (rev (v :: acc), r)
      | _ => None
      end
  end.

Fixpoint parse_members (fuel : nat) (ts : list token) (acc : list (string * json))
  : option (list (string * json) * list token) :=
  match fuel with
  | O => None
  | S f =>
      match ts with
      | TString k :: TColon :: r =>
          match parse_value r with
          | Some (v, TComma :: r') => parse_members f r' ((k, v) :: acc)
          | Some (v, TRBrace :: r') => Some (rev ((k, v) :: acc), r')
          | _ => None
          end
      | _ => None
      end
  end.
End Parser.

Fixpoint parse (fuel : nat) (ts : list token) : option (json * list token) :=
  match fuel with
  | O => None
  | S f =>
      match ts with
      | TString s :: r => Some (JStr s, r)
      | TNumber lexeme :: r =>
          match int_literal lexeme with
          | Some z => Some (JInt z, r)
          | None => None
          end
      | TWord w :: r =>
          if String.eqb w "null" then Some (JNull, r)
          else if String.eqb w "true" then Some (JBool true, r)
          else if String.eqb w "false" then Some (JBool false, r)
          else None
      | TLBrack :: TRBrack :: r => Some (JList [], r)
      | TLBrack :: r =>
          match parse_items (parse f) f r [] with
          | Some (items, r') => Some (JList items, r')
          | None => None
          end
      | TLBrace :: TRBrace :: r => Some (JObj [], r)
      | TLBrace :: r =>
          match parse_members (parse f) f r [] with
          | Some (pairs, r') => Some (JObj (dict_of_pairs pairs), r')
          | None => None
          end
      | _ => None
      end
  end.

Definition loads (s : string) : option json :=
  match lex Idle s with
  | Some ts =>
      match parse (S (List.length ts)) ts with
      | Some (v, []) => Some v
      | _ => None
      end
  | None => None
  end.

End Json.

(* ================================================================== *)
(** ** Operations of Python on decoded values *)

Module PyJson.
Import PyStr Json.

(** [v.get(k, default)]: only a [dict] has the method *)
Definition get (v : json) (k : string) (default : json) : py json :=
  match v with
  | JObj d =>
      Ok (match dict_get k d with
          | Some x => x
          | None => default
          end)
  | _ => Raise AttributeError
  end.

(** [v[k]] for a string key *)
Definition getitem (v : json) (k : string) : py json :=
  match v with
  | JObj d =>
      match dict_get k d with
      | Some x => Ok x
      | None => Raise KeyError
      end
  | _ => Raise TypeError
  end.

(** [v[i]] for a non-negative integer index *)
Definition getitem_int (v : json) (i : nat) : py json :=
  match v with
  | JList items =>
      match nth_error items i with
      | Some x => Ok x
      | None => Raise IndexError
      end
  | JStr s =>
      match String.get i s with
      | Some c => Ok (JStr (String c EmptyString))
      | None => Raise IndexError
      end
  | JObj _ => Raise KeyError
  | _ => Raise TypeError
  end.

(** [v[k] = x] for a string key *)
Definition setitem (v : json) (k : string) (x : json) : py json :=
  match v with
  | JObj d => Ok (JObj (dict_set k x d))
  | _ => Raise TypeError
  end.

Definition eq_str (s : string) (v : json) : bool :=
  match v with
  | JStr s' => String.eqb s s'
  | _ => false
  end.

(** [needle in v] for a string [needle]: substring of a string, element of
    a list, key of a dictionary; the other values are not iterable *)
Definition py_in (needle : string) (v : json) : py bool :=
  match v with
  | JStr s => Ok (contains needle s)
  | JList items => Ok (existsb (eq_str needle) items)
  | JObj d => Ok (dict_mem needle d)
  | _ => Raise TypeError
  end.

(** [v in [s1, ..., sn]] for a list of string literals *)
Definition in_strs (v : json) (l : list string) : bool :=
  existsb (fun s => eq_str s v) l.

(** [v.replace(old, new)], [v.strip()], [v.lower()]: methods of [str] *)
Definition py_replace (v : json) (old new : string) : py json :=
  match v with
  | JStr s => Ok (JStr (replace old new s))
  | _ => Raise AttributeError
  end.

Definition py_strip (v : json) : py json :=
  match v with
  | JStr s => Ok (JStr (strip s))
  | _ => Raise AttributeError
  end.

Definition py_lower (v : json) : py json :=
  match v with
  | JStr s => Ok (JStr (lower s))
  | _ => Raise AttributeError
  end.

End PyJson.

(* ================================================================== *)
(** ** main.py *)

Module Main.
Import PyStr Json PyJson.

Definition OPENROUTER_BASE_URL : string :=
  "https://openrouter.ai/api/v1/chat/completions".
Definition OPENROUTER_MODEL : string := "amazon/nova-2-lite-v1:free".

Record message : Type := { role : string; content : string }.

(** The arguments of [client.post]; the two decimal literals are kept as
    written *)
Record request : Type := {
  url : string;
  headers : list (string * string);
  model : string;
  messages : list message;
  temperature : string;
  timeout : string
}.

(** What [await client.post(...)] yields: it raises on a network error or
    a timeout, or it returns a response with a status code and a body *)
Inductive http_outcome : Type :=
| TransportFailure
| Response (status_code : Z) (text : string).

(** [response.raise_for_status()] returns normally on a 2xx status *)
Definition is_success (status_code : Z) : bool :=
  ((200 <=? status_code) && (status_code <=? 299))%Z.

(** *** 1. Extract metadata (lines 56-61) *)

Definition extract_metadata (event : json) : py (json * json * json) :=
  event_type <- get event "type" (JStr "unknown_type") ;;
  data <- get event "data" (JObj []) ;;
  data_object <- get data "object" (JObj []) ;;
  object_id <- get data_object "id" (JStr "unknown_id") ;;
  Ok (event_type, data_object, object_id).

(** *** 2. Build the prompts (lines 65-110) *)

Definition system_prompt : string :=
  "You are an expert Stripe technical consultant and business analyst. "
  ++ "Your goal is to parse raw JSON webhook events and translate them into "
  ++ "clear, actionable insights for a non-technical stakeholder." ++ nl ++ nl
  ++ "RULES:" ++ nl
  ++ "1. Output valid JSON ONLY. No markdown, no commentary." ++ nl
  ++ "2. Be concise but specific. Avoid generic advice like 'check logs'." ++ nl
  ++ "3. Derive impact level conservatively: failures/disputes are HIGH, "
  ++ "warnings/upcoming invoices are LOW/MEDIUM." ++ nl
  ++ "4. 'root_cause' should explain the technical reason (e.g., 'Insufficient funds', 'Expired card').".

Definition quoted (s : string) : string := dq ++ s ++ dq.

Definition user_prompt (event_type : json) (event_str : string) : string :=
  unlines [
    EmptyString;
    "Analyze the following Stripe webhook event.";
    EmptyString;
    "Event Type: " ++ str event_type;
    EmptyString;
    "Raw Payload:";
    event_str;
    EmptyString;
    "OUTPUT INSTRUCTIONS:";
    "1. 'summary': Provide a 1-sentence executive summary of what happened.";
    "2. 'root_cause': Extract the specific failure code or reason if present (e.g., 'generic_decline', 'insufficient_funds'). If success, state "
      ++ quoted "Successful transaction" ++ ".";
    "3. 'customer_impact_level':";
    "   - HIGH: Payment failed, dispute created, subscription canceled unexpectedly.";
    "   - MEDIUM: Payment dispute won, subscription updated.";
    "   - LOW: Payout paid, invoice created, payment succeeded.";
    "4. 'recommended_actions': ";
    "   - Propose 2-3 specific steps.";
    "   - Example 1: " ++ quoted "Contact customer [email/ID] to update payment method.";
    "   - Example 2: " ++ quoted "Review dispute evidence for charge [ID].";
    EmptyString;
    "Output STRICT JSON matching this schema:";
    "{";
    "  " ++ quoted "event_type" ++ ": " ++ quoted (str event_type) ++ ",";
    "  " ++ quoted "summary" ++ ": " ++ quoted "..." ++ ",";
    "  " ++ quoted "root_cause" ++ ": " ++ quoted "..." ++ ",";
    "  " ++ quoted "customer_impact_level" ++ ": " ++ quoted "low | medium | high" ++ ",";
    "  " ++ quoted "recommended_actions" ++ ": [" ++ quoted "..." ++ "]";
    "}";
    EmptyString
  ].

(** The text an f-string renders for the configured key: [None] when the
    variable is not set *)
Definition str_of_key (key : option string) : string :=
  match key with
  | Some k => k
  | None => "None"
  end.

(** [not OPENROUTER_API_KEY]: the key is [None] or the empty string *)
Definition key_missing (key : option string) : bool :=
  match key with
  | None => true
  | Some EmptyString => true
  | Some _ => false
  end.

(** *** Normalization of the impact level (lines 151-155) *)

Definition impact_levels : list string := ["low"; "medium"; "high"].

Definition normalize_impact (parsed_result : json) : py json :=
  present <- py_in "customer_impact_level" parsed_result ;;
  if present then
    level <- getitem parsed_result "customer_impact_level" ;;
    lowered <- py_lower level ;;
    parsed_result <- setitem parsed_result "customer_impact_level" lowered ;;
    level <- getitem parsed_result "customer_impact_level" ;;
    if negb (in_strs level impact_levels)
    then setitem parsed_result "customer_impact_level" (JStr "medium")
    else Ok parsed_result
  else Ok parsed_result.

(** *** Cleanup of the model's content (line 147) *)

Definition clean_content (content : json) : py json :=
  without_open <- py_replace content "```json" EmptyString ;;
  without_fence <- py_replace without_open "```" EmptyString ;;
  py_strip without_fence.

(** The same on a string, where no step can raise *)
Definition clean_text (content : string) : string :=
  strip (replace "```" EmptyString (replace "```json" EmptyString content)).

(** *** 4. Fallback logic (lines 162-178) *)

Definition fallback_impact (event_type : json) : py string :=
  failed <- py_in "payment_failed" event_type ;;
  if failed then Ok "high"
  else
    dispute <- py_in "dispute" event_type ;;
    if dispute then Ok "high"
    else
      upcoming <- py_in "invoice.upcoming" event_type ;;
      if upcoming then Ok "low" else Ok "medium".

Definition fallback_response (event_type : json) : py json :=
  impact <- fallback_impact event_type ;;
  Ok (JObj [
    ("event_type", event_type);
    ("summary", JStr ("Received event " ++ str event_type
                      ++ ". Automated analysis unavailable."));
    ("root_cause", JStr "N/A (LLM unavailable)");
    ("customer_impact_level", JStr impact);
    ("recommended_actions", JList [JStr "Check Stripe Dashboard manually."])
  ]).

Section Analyzer.
(** [json.loads]; [None] stands for the decoder raising *)
Variable json_loads : string -> option json.
(** The value of the environment variable, read at start-up *)
Variable OPENROUTER_API_KEY : option string.
(** The completion service, as seen through [client.post] *)
Variable client_post : request -> http_outcome.

Definition decode (s : string) : py json :=
  match json_loads s with
  | Some v => Ok v
  | None => Raise JSONDecodeError
  end.

Definition decode_value (v : json) : py json :=
  match v with
  | JStr s => decode s
  | _ => Raise TypeError
  end.

(** *** 3. The request (lines 113-127) *)
Definition build_request (event_type event : json) : request :=
  let event_str := dumps_indent2 event in
  {| url := OPENROUTER_BASE_URL;
     headers := [
       ("Authorization", "Bearer " ++ str_of_key OPENROUTER_API_KEY);
       ("HTTP-Referer", "http://localhost");
       ("X-Title", "StripeEventExplainer");
       ("Content-Type", "application/json")
     ];
     model := OPENROUTER_MODEL;
     messages := [
       {| role := "system"; content := system_prompt |};
       {| role := "user"; content := user_prompt event_type event_str |}
     ];
     temperature := "0.2";
     timeout := "30.0" |}.

(** Lines 130-143: the key check, the request, [raise_for_status] and
    [response.json()], with the requests that were sent *)
Definition call_service (req : request) : list request * py json :=
  if key_missing OPENROUTER_API_KEY then ([], Raise ValueError)
  else
    ([req],
     match client_post req with
     | TransportFailure => Raise HTTPError
     | Response status_code text =>
         if is_success status_code then decode text else Raise HTTPError
     end).

(** Lines 144-157: from the decoded response to the returned value *)
Definition read_completion (result_json : json) : py json :=
  choices <- getitem result_json "choices" ;;
  first <- getitem_int choices 0 ;;
  message <- getitem first "message" ;;
  getitem message "content".

Definition parse_completion (result_json : json) : py json :=
  content <- read_completion result_json ;;
  cleaned_content <- clean_content content ;;
  decode_value cleaned_content.

Definition interpret (result_json : json) : py json :=
  parsed_result <- parse_completion result_json ;;
  normalize_impact parsed_result.

(** The body of the [try] *)
Definition llm_analysis (req : request) : list request * py json :=
  let (sent, response) := call_service req in
  (sent, result_json <- response ;; interpret result_json).

Definition analyze_stripe_event (event : json) : list request * py json :=
  match extract_metadata event with
  | Raise e => ([], Raise e)
  | Ok (event_type, _, _) =>
      let req := build_request event_type event in
      let (sent, outcome) := llm_analysis req in
      (sent, try_except outcome (fun _ => fallback_response event_type))
  end.

End Analyzer.

(** *** The input type

    A [WebhookEvent] (spec, data model) is a JSON object whose [type], when
    present, is a string and whose [data] and [data.object], when present,
    are objects. *)

Definition is_str (v : json) : bool :=
  match v with JStr _ => true | _ => false end.

Definition is_obj (v : json) : bool :=
  match v with JObj _ => true | _ => false end.

Definition absent_or (p : json -> bool) (o : option json) : bool :=
  match o with
  | None => true
  | Some v => p v
  end.

Definition data_shape (data : json) : bool :=
  match data with
  | JObj d => absent_or is_obj (dict_get "object" d)
  | _ => false
  end.

(** The shapes on which the four [get] calls of the extraction succeed *)
Definition extractable (event : json) : bool :=
  match event with
  | JObj d => absent_or data_shape (dict_get "data" d)
  | _ => false
  end.

Definition webhook_event (event : json) : bool :=
  extractable event && absent_or is_str (field "type" event).

Definition WebhookEvent (event : json) : Prop := webhook_event event = true.

(** The event's [type], or the sentinel *)
Definition type_of (event : json) : json :=
  match field "type" event with
  | Some t => t
  | None => JStr "unknown_type"
  end.

End Main.

(* ================================================================== *)
(** ** Notions used to state the properties *)

Module Props.
Import PyStr Json PyJson Main.

Definition default_to (d : json) (o : option json) : json :=
  match o with
  | Some v => v
  | None => d
  end.

(** [data.object], or the empty object *)
Definition data_object_of (event : json) : json :=
  default_to (JObj []) (field "object" (default_to (JObj []) (field "data" event))).

(** The [id] of [data.object], or the sentinel *)
Definition object_id_of (event : json) : json :=
  default_to (JStr "unknown_id") (field "id" (data_object_of event)).

(** The request that [analyze_stripe_event] builds for an event *)
Definition request_for (key : option string) (event : json) : request :=
  build_request key (type_of event) event.

(** The user instruction of that request *)
Definition user_prompt_of (event : json) : string :=
  user_prompt (type_of event) (dumps_indent2 event).

(** The outcome of the [try] body *)
Definition llm_outcome (json_loads : string -> option json) (key : option string)
    (client_post : request -> http_outcome) (event : json) : py json :=
  snd (llm_analysis json_loads key client_post (request_for key event)).

(** The model's output once cleaned and decoded, before normalization *)
Definition model_output (json_loads : string -> option json) (key : option string)
    (client_post : request -> http_outcome) (event : json) : py json :=
  result_json <- snd (call_service json_loads key client_post (request_for key event)) ;;
  parse_completion json_loads result_json.

(** [needle] occurs in [s] *)
Definition Substring (needle s : string) : Prop :=
  exists before after, s = before ++ needle ++ after.

(** The fallback classification in the words of the specification: the
    first rule that matches decides *)
Definition classify (event_type : string) : string :=
  if contains "payment_failed" event_type then "high"
  else if contains "dispute" event_type then "high"
  else if contains "invoice.upcoming" event_type then "low"
  else "medium".

(** The value the normalization gives to an impact level sent as a string *)
Definition normalized_level (s : string) : string :=
  if in_list (lower s) impact_levels then lower s else "medium".

(** The fallback result for an event type given as a string *)
Definition fallback_for (event_type : string) : json :=
  JObj [
    ("event_type", JStr event_type);
    ("summary", JStr ("Received event " ++ event_type
                      ++ ". Automated analysis unavailable."));
    ("root_cause", JStr "N/A (LLM unavailable)");
    ("customer_impact_level", JStr (classify event_type));
    ("recommended_actions", JList [JStr "Check Stripe Dashboard manually."])
  ].

(** The ways in which the external path fails, for a configured key *)
Inductive service_failure (json_loads : string -> option json)
  : http_outcome -> Prop :=
| network_error_or_timeout :
    service_failure json_loads TransportFailure
| bad_status : forall status_code text,
    is_success status_code = false ->
    service_failure json_loads (Response status_code text)
| non_json_body : forall status_code text,
    json_loads text = None ->
    service_failure json_loads (Response status_code text)
| missing_structure : forall status_code text result_json e,
    json_loads text = Some result_json ->
    read_completion result_json = Raise e ->
    service_failure json_loads (Response status_code text)
| content_not_text : forall status_code text result_json content,
    json_loads text = Some result_json ->
    read_completion result_json = Ok content ->
    is_str content = false ->
    service_failure json_loads (Response status_code text)
| unparseable_content : forall status_code text result_json content,
    json_loads text = Some result_json ->
    read_completion result_json = Ok (JStr content) ->
    json_loads (clean_text content) = None ->
    service_failure json_loads (Response status_code text).

(** No character of [s] is a backtick *)
Definition no_backtick (s : string) : bool :=
  forallb (fun c => negb (Ascii.eqb c backtick)) (list_ascii_of_string s).

End Props.

(* ================================================================== *)
(** ** Worked inputs *)

Module Examples.
Import PyStr Json PyJson Main Props.

(** JSON text written with the single quote standing for the double quote *)
Definition json_text (s : string) : string := replace sq dq s.

Definition payment_failed_event : json :=
  JObj [("type", JStr "invoice.payment_failed");
        ("data", JObj [("object", JObj [("id", JStr "in_12345")])])].

Definition ping_event : json := JObj [("type", JStr "ping")].

Definition empty_event : json := JObj [].

Definition dispute_event : json :=
  JObj [("id", JStr "evt_1"); ("type", JStr "charge.dispute.created")].

(** An event whose [data] is a string *)
Definition malformed_event : json := JObj [("data", JStr "oops")].

Definition test_key : option string := Some "sk-test".

(** The service cannot be reached *)
Definition unreachable : request -> http_outcome := fun _ => TransportFailure.

(** The body of a completion response carrying [content] *)
Definition completion_body (content : string) : string :=
  dumps_indent2
    (JObj [("choices",
            JList [JObj [("message",
                          JObj [("role", JStr "assistant");
                                ("content", JStr content)])]])]).

(** The service answers 200 with [content] as the first completion *)
Definition answering (content : string) : request -> http_outcome :=
  fun _ => Response 200 (completion_body content).

Definition other_type_content : string := json_text "{'event_type': 'other'}".

Definition no_level_content : string := json_text "{'summary': 'Card declined'}".

Definition numeric_level_content : string :=
  json_text "{'summary': 'Card declined', 'customer_impact_level': 5}".

Definition high_object_text : string :=
  json_text "{'summary': 'Card declined', 'customer_impact_level': 'HIGH'}".

Definition fenced (body : string) : string := "```json" ++ body ++ "```".

(** A valid object with level HIGH and a second key that holds a fence *)
Definition tricky_object_text : string :=
  json_text "{'customer_impact_level': 'HIGH', 'customer_```impact_level': 'n/a'}".

(** A valid object whose summary holds fence markers *)
Definition backtick_summary_content : string :=
  json_text "{'summary': 'run ```ls``` now', 'customer_impact_level': 'low'}".

End Examples.

(* ================================================================== *)
(** ** The HTTP route of main.py (lines 39-44 and 188-199) *)

Module Route.
Import PyStr Json PyJson Main.

(** [class EventExplanation(BaseModel)]: five required fields *)
Record EventExplanation : Type := {
  event_type : string;
  summary : string;
  root_cause : string;
  customer_impact_level : string;
  recommended_actions : list string
}.

(** The names of the fields, in the order of the class *)
Definition field_names : list string :=
  ["event_type"; "summary"; "root_cause"; "customer_impact_level";
   "recommended_actions"].

(** A [str] field takes a string *)
Definition as_str (v : json) : option string :=
  match v with
  | JStr s => Some s
  | _ => None
  end.

Fixpoint as_strs (items : list json) : option (list string) :=
  match items with
  | [] => Some []
  | x :: rest =>
      match as_str x, as_strs rest with
      | Some s, Some ss => Some (s :: ss)
      | _, _ => None
      end
  end.

(** A [List[str]] field takes a list of strings *)
Definition as_str_list (v : json) : option (list string) :=
  match v with
  | JList items => as_strs items
  | _ => None
  end.

Definition required {A : Type} (read : json -> option A) (k : string) (d : dict)
  : option A :=
  match dict_get k d with
  | Some v => read v
  | None => None
  end.

(** The validation of the value returned by the route against
    [response_model=EventExplanation], for a value made by JSON decoding,
    as pydantic 2 does it by default: the value is a dictionary, each field
    is present and of its type, and the other keys are ignored.  [None]
    stands for the validation error, which the client sees as a 500. *)
Definition validate (v : json) : option EventExplanation :=
  match v with
  | JObj d =>
      match required as_str "event_type" d,
            required as_str "summary" d,
            required as_str "root_cause" d,
            required as_str "customer_impact_level" d,
            required as_str_list "recommended_actions" d with
      | Some t, Some s, Some c, Some l, Some a =>
          Some {| event_type := t; summary := s; root_cause := c;
                  customer_impact_level := l; recommended_actions := a |}
      | _, _, _, _, _ => None
      end
  | _ => None
  end.

(** The response body: the fields of the model, in the order of the class *)
Definition serialize (m : EventExplanation) : json :=
  JObj [
    ("event_type", JStr (event_type m));
    ("summary", JStr (summary m));
    ("root_cause", JStr (root_cause m));
    ("customer_impact_level", JStr (customer_impact_level m));
    ("recommended_actions", JList (map JStr (recommended_actions m)))
  ].

(** What the client of the route receives *)
Inductive reply : Type :=
| Success (body : json)
| HTTPException (status_code : Z) (detail : string)
| ResponseValidationError
| Unhandled (e : exn).

Definition respond (outcome : py json) : reply :=
  match outcome with
  | Raise e => Unhandled e
  | Ok result =>
      match validate result with
      | Some m => Success (serialize m)
      | None => ResponseValidationError
      end
  end.

Section Endpoint.
Variable json_loads : string -> option json.
(** The exception that [request.json()] raises on a body it does not
    decode: [JSONDecodeError] on malformed JSON text; a [ValueError] that is
    not a [JSONDecodeError] on a body that is not valid UTF-8
    ([UnicodeDecodeError]) or on an integer literal over the digit limit *)
Variable decode_failure : string -> exn.
Variable OPENROUTER_API_KEY : option string.
Variable client_post : request -> http_outcome.

(** [explain_event]: [request.json()] decodes the body with [json.loads];
    [except json.JSONDecodeError] turns that exception, and no other, into
    a 400; the requests sent by the analysis are kept with the reply *)
Definition explain_event (body : string) : list request * reply :=
  match json_loads body with
  | None =>
      match decode_failure body with
      | JSONDecodeError => ([], HTTPException 400 "Invalid JSON body")
      | e => ([], Unhandled e)
      end
  | Some event =>
      let (sent, outcome) :=
        analyze_stripe_event json_loads OPENROUTER_API_KEY client_post event in
      (sent, respond outcome)
  end.
End Endpoint.

(** The values on which [in] is defined: strings, lists, dictionaries *)
Definition iterable (v : json) : bool :=
  match v with
  | JStr _ | JList _ | JObj _ => true
  | _ => false
  end.

End Route.

Module RouteExamples.
Import PyStr Json PyJson Main Props Examples Route.

(** The body of a request carrying the ping event *)
Definition ping_body : string := json_text "{'type': 'ping'}".

Definition array_body : string := "[1, 2]".

(** The decoding failures of a body that is ASCII text with short numbers:
    malformed JSON only *)
Definition malformed_text : string -> exn := fun _ => JSONDecodeError.




Definition null_type_event : json := JObj [("type", JNull)].

(** A full answer of the model, with one key the response model ignores *)
Definition full_answer_content : string :=
  json_text ("{'event_type': 'ping', 'summary': 'A ping', 'root_cause': 'none', "
             ++ "'customer_impact_level': 'Low', 'recommended_actions': ['Nothing'], "
             ++ "'confidence': 1}").

End RouteExamples.

(* ================================================================== *)
(** ** Facts about the string primitives *)

Module StrFacts.
Import PyStr Props.

Lemma append_empty_r (s : string) : s ++ EmptyString = s.
Proof. induction s as [|c s IH]; simpl; [reflexivity | now rewrite IH]. Qed.

Lemma append_assoc (a b c : string) : (a ++ b) ++ c = a ++ (b ++ c).
Proof. induction a as [|x a IH]; simpl; [reflexivity | now rewrite IH]. Qed.

Lemma length_append (a b : string) :
  String.length (a ++ b) = (String.length a + String.length b)%nat.
Proof. induction a as [|x a IH]; simpl; [reflexivity | now rewrite IH]. Qed.

Lemma prefix_empty (s : string) : prefix EmptyString s = true.
Proof. now destruct s. Qed.

Lemma prefix_append (n s : string) : prefix n (n ++ s) = true.
Proof.
  induction n as [|c n IH]; simpl; [apply prefix_empty|].
  destruct (ascii_dec c c) as [_|ne]; [exact IH | now elim ne].
Qed.

Lemma prefix_split (n s : string) :
  prefix n s = true -> exists rest, s = n ++ rest.
Proof.
  revert s; induction n as [|c n IH]; intros s H.
  - now exists s.
  - destruct s as [|d s]; [discriminate|]. simpl in H.
    destruct (ascii_dec c d) as [->|]; [|discriminate].
    destruct (IH s H) as [rest ->]. now exists rest.
Qed.

Lemma prefix_trans (a b s : string) :
  prefix a b = true -> prefix b s = true -> prefix a s = true.
Proof.
  intros Hab Hbs.
  destruct (prefix_split _ _ Hab) as [r1 ->].
  destruct (prefix_split _ _ Hbs) as [r2 ->].
  rewrite append_assoc. apply prefix_append.
Qed.

Lemma contains_prefix (n s : string) :
  prefix n s = true -> contains n s = true.
Proof. intros H. destruct s; cbn [contains]; rewrite H; reflexivity. Qed.

(** [contains] decides substring containment *)
Lemma contains_Substring (n s : string) :
  contains n s = true <-> Substring n s.
Proof.
  split.
  - induction s as [|c s IH]; cbn [contains]; intros H.
    + destruct (prefix_split _ _ H) as [r Hr]. now exists EmptyString, r.
    + apply orb_true_iff in H as [H|H].
      * destruct (prefix_split _ _ H) as [r Hr]. now exists EmptyString, r.
      * destruct (IH H) as (a & b & ->). now exists (String c a), b.
  - intros (a & b & ->). induction a as [|c a IH].
    + change (EmptyString ++ n ++ b) with (n ++ b). apply contains_prefix, prefix_append.
    + change (String c a ++ n ++ b) with (String c (a ++ n ++ b)).
      cbn [contains]. rewrite IH. apply orb_true_r.
Qed.

Lemma not_contains_Substring (n s : string) :
  contains n s = false <-> ~ Substring n s.
Proof.
  rewrite <- contains_Substring. destruct (contains n s); split; intros H;
    try discriminate; try reflexivity; try (intros X; discriminate).
  now elim H.
Qed.

Lemma contains_tail (n : string) (c : ascii) (s : string) :
  contains n (String c s) = false -> contains n s = false.
Proof. cbn [contains]. intros H. now apply orb_false_iff in H. Qed.

Lemma contains_head (n : string) (c : ascii) (s : string) :
  contains n (String c s) = false -> prefix n (String c s) = false.
Proof. cbn [contains]. intros H. now apply orb_false_iff in H. Qed.

Lemma contains_append_r (n a b : string) :
  contains n b = true -> contains n (a ++ b) = true.
Proof.
  rewrite !contains_Substring. intros (x & y & ->).
  exists (a ++ x), y. now rewrite append_assoc.
Qed.

Lemma contains_append_l (n a b : string) :
  contains n a = true -> contains n (a ++ b) = true.
Proof.
  rewrite !contains_Substring. intros (x & y & ->).
  exists x, (y ++ b). now rewrite !append_assoc.
Qed.

Lemma contains_longer (short long s : string) :
  prefix short long = true -> contains short s = false -> contains long s = false.
Proof.
  intros Hp Hs. destruct (contains long s) eqn:E; [|reflexivity].
  apply contains_Substring in E as (a & b & ->).
  destruct (prefix_split _ _ Hp) as [r ->].
  rewrite <- Hs. symmetry. apply contains_Substring.
  exists a, (r ++ b). now rewrite append_assoc.
Qed.

(** *** [replace] *)

Lemma replace_from_skip (old new a s : string) :
  replace_from old new (String.length a) (a ++ s) = replace_from old new 0 s.
Proof. induction a as [|c a IH]; simpl; [reflexivity | exact IH]. Qed.

Lemma replace_from_head (old new s : string) (c : ascii) :
  replace_from (String c old) new 0 (String c old ++ s)
  = new ++ replace_from (String c old) new 0 s.
Proof.
  change (String c old ++ s) with (String c (old ++ s)).
  cbn [replace_from].
  change (String c (old ++ s)) with (String c old ++ s).
  rewrite prefix_append.
  replace (String.length (String c old) - 1)%nat with (String.length old)
    by (cbn [String.length]; lia).
  now rewrite replace_from_skip.
Qed.

Lemma replace_from_absent (old new s : string) :
  contains old s = false -> replace_from old new 0 s = s.
Proof.
  induction s as [|c s IH]; intros H; [reflexivity|].
  cbn [replace_from]. rewrite (contains_head _ _ _ H).
  now rewrite (IH (contains_tail _ _ _ H)).
Qed.

End StrFacts.

(* ================================================================== *)
(** ** Facts about the fence markers *)

Module FenceFacts.
Import PyStr Props Main StrFacts.

Lemma prefix_cons (a c : ascii) (n t : string) :
  prefix (String a n) (String c t) = true <-> a = c /\ prefix n t = true.
Proof.
  cbn [prefix]. destruct (ascii_dec a c) as [->|ne]; split.
  - intros H; now split.
  - now intros [_ H].
  - discriminate.
  - intros [E _]. now elim ne.
Qed.

Lemma fence_head (c : ascii) (s : string) :
  prefix "```" (String c s) = true <-> c = "`"%char /\ prefix "``" s = true.
Proof. rewrite prefix_cons. intuition congruence. Qed.

(** What the removal of the fences leaves starts with a backtick only
    where the text did *)
Lemma removal_starts_1 (s t : string) :
  replace_from "```" EmptyString 0 s = String "`" t -> exists s', s = String "`" s'.
Proof.
  destruct s as [|c s]; cbn [replace_from]; [discriminate|].
  destruct (prefix "```" (String c s)) eqn:P.
  - apply fence_head in P as [-> _]. intros _. now exists s.
  - intros [= -> _]. now exists s.
Qed.

Lemma removal_starts_2 (s : string) :
  prefix "``" (replace_from "```" EmptyString 0 s) = true -> prefix "``" s = true.
Proof.
  intros H. destruct (prefix_split _ _ H) as [r Hr].
  change ("``" ++ r) with (String "`" (String "`" r)) in Hr.
  destruct (removal_starts_1 _ _ Hr) as [s1 ->].
  cbn [replace_from] in Hr.
  destruct (prefix "```" (String "`" s1)) eqn:P.
  - apply fence_head in P as [_ P]. apply prefix_cons.
    split; [reflexivity|]. apply (prefix_trans _ "``"); [reflexivity | exact P].
  - injection Hr as Hr.
    destruct (removal_starts_1 _ _ Hr) as [s2 ->].
    apply prefix_cons. split; [reflexivity|]. apply prefix_cons.
    split; [reflexivity | apply prefix_empty].
Qed.

(** No fence marker is left once the occurrences of [```] are removed *)
Lemma no_fence_left (s : string) (skip : nat) :
  contains "```" (replace_from "```" EmptyString skip s) = false.
Proof.
  revert skip. induction s as [|c s IH]; intros skip; [reflexivity|].
  destruct skip as [|k]; cbn [replace_from]; [|apply IH].
  destruct (prefix "```" (String c s)) eqn:P; [apply IH|].
  cbn [contains]. rewrite IH, orb_false_r.
  destruct (prefix "```" (String c (replace_from "```" EmptyString 0 s))) eqn:Q;
    [|reflexivity].
  apply fence_head in Q as [-> Q]. apply removal_starts_2 in Q.
  rewrite <- P. symmetry. apply fence_head. now split.
Qed.

(** *** [strip] keeps a segment of the text *)

Lemma lstrip_suffix (s : string) : exists a, s = a ++ lstrip s.
Proof.
  induction s as [|c s [a IH]]; [now exists EmptyString|].
  cbn [lstrip]. destruct (is_space c).
  - exists (String c a). cbn [append]. now rewrite <- IH.
  - now exists EmptyString.
Qed.

Lemma rstrip_prefix (s : string) : exists b, s = rstrip s ++ b.
Proof.
  induction s as [|c s [b IH]]; [now exists EmptyString|].
  cbn [rstrip]. destruct (rstrip s) as [|x y].
  - destruct (is_space c).
    + now exists (String c s).
    + now exists s.
  - exists b. cbn [append] in *. congruence.
Qed.

Lemma strip_segment (s : string) : exists a b, s = a ++ strip s ++ b.
Proof.
  destruct (lstrip_suffix s) as [a Ha].
  destruct (rstrip_prefix (lstrip s)) as [b Hb].
  exists a, b. unfold strip. now rewrite <- Hb.
Qed.

Lemma contains_strip (n s : string) :
  contains n s = false -> contains n (strip s) = false.
Proof.
  intros H. destruct (contains n (strip s)) eqn:E; [|reflexivity].
  destruct (strip_segment s) as (a & b & Hs).
  rewrite <- H, Hs. symmetry.
  apply contains_append_r, contains_append_l, E.
Qed.

(** The cleaned content never holds a fence marker *)
Lemma clean_text_no_fence (content : string) :
  contains "```" (clean_text content) = false.
Proof. unfold clean_text. apply contains_strip, no_fence_left. Qed.

(** *** Content wrapped in fences *)

Lemma no_open_fence (body : string) :
  contains "```" body = false -> contains "```json" (body ++ "```") = false.
Proof.
  induction body as [|c body IH]; intros H; [reflexivity|].
  change (String c body ++ "```") with (String c (body ++ "```")).
  cbn [contains]. rewrite (IH (contains_tail _ _ _ H)), orb_false_r.
  destruct (prefix "```json" (String c (body ++ "```"))) eqn:P; [|reflexivity].
  apply contains_head in H. rewrite <- H. symmetry.
  destruct body as [|c2 [|c3 [|c4 r]]]; cbn [append] in P.
  - apply prefix_cons in P as [_ P]. apply prefix_cons in P as [_ P].
    apply prefix_cons in P as [_ P]. now apply prefix_cons in P as [P _].
  - apply prefix_cons in P as [_ P]. apply prefix_cons in P as [_ P].
    apply prefix_cons in P as [_ P]. now apply prefix_cons in P as [P _].
  - apply prefix_cons in P as [_ P]. apply prefix_cons in P as [_ P].
    apply prefix_cons in P as [_ P]. now apply prefix_cons in P as [P _].
  - apply prefix_cons in P as [<- P]. apply prefix_cons in P as [<- P].
    apply prefix_cons in P as [<- _]. reflexivity.
Qed.

Lemma closing_fence_removed (body : string) :
  contains "```" body = false ->
  replace_from "```" EmptyString 0 (body ++ "```") = body.
Proof.
  induction body as [|c body IH]; intros H; [reflexivity|].
  change (String c body ++ "```") with (String c (body ++ "```")).
  cbn [replace_from].
  destruct (prefix "```" (String c (body ++ "```"))) eqn:P.
  - apply contains_head in H.
    apply fence_head in P as [-> P].
    destruct body as [|c2 [|c3 r]]; [reflexivity| |].
    + cbn [append] in P. apply prefix_cons in P as [<- _]. reflexivity.
    + cbn [append] in P. apply prefix_cons in P as [<- P].
      apply prefix_cons in P as [<- _].
      change (String "`" (String "`" (String "`" r))) with ("```" ++ r) in H.
      rewrite prefix_append in H. discriminate H.
  - now rewrite (IH (contains_tail _ _ _ H)).
Qed.

Lemma clean_text_fenced (body : string) :
  contains "```" body = false ->
  clean_text ("```json" ++ body ++ "```") = strip body.
Proof.
  intros H. unfold clean_text, replace.
  rewrite (replace_from_head "``json" EmptyString (body ++ "```") "`"%char).
  cbn [append].
  rewrite (replace_from_absent _ _ _ (no_open_fence _ H)).
  now rewrite closing_fence_removed.
Qed.

Lemma clean_text_plain (body : string) :
  contains "```" body = false -> clean_text body = strip body.
Proof.
  intros H. unfold clean_text, replace.
  rewrite (replace_from_absent "```json" EmptyString body)
    by (apply (contains_longer "```"); [reflexivity | exact H]).
  now rewrite replace_from_absent.
Qed.

(** *** Markers inside the text *)

Lemma no_backtick_cons (c : ascii) (s : string) :
  no_backtick (String c s) = true <-> c <> "`"%char /\ no_backtick s = true.
Proof.
  unfold no_backtick, backtick. cbn [list_ascii_of_string forallb].
  rewrite andb_true_iff, negb_true_iff.
  change (ascii_of_nat 96) with "`"%char.
  split; intros [A B]; split; try assumption.
  - intros ->. now rewrite Ascii.eqb_refl in A.
  - now apply Ascii.eqb_neq.
Qed.

Lemma no_backtick_prefix (old : string) (s : string) :
  no_backtick s = true -> prefix (String "`" old) s = false.
Proof.
  destruct s as [|c s]; [reflexivity|]. intros H.
  apply no_backtick_cons in H as [ne _].
  destruct (prefix (String "`" old) (String c s)) eqn:P; [|reflexivity].
  apply prefix_cons in P as [<- _]. now elim ne.
Qed.

Lemma no_backtick_contains (old : string) (s : string) :
  no_backtick s = true -> contains (String "`" old) s = false.
Proof.
  induction s as [|c s IH]; intros H; [reflexivity|].
  cbn [contains]. rewrite (no_backtick_prefix old _ H).
  apply no_backtick_cons in H as [_ H]. now rewrite IH.
Qed.

Lemma no_backtick_append (a b : string) :
  no_backtick a = true -> no_backtick b = true -> no_backtick (a ++ b) = true.
Proof.
  induction a as [|c a IH]; intros Ha Hb; [exact Hb|].
  change (String c a ++ b) with (String c (a ++ b)).
  apply no_backtick_cons in Ha as [ne Ha]. apply no_backtick_cons.
  split; [exact ne | now apply IH].
Qed.

Lemma replace_from_past (old new a t : string) :
  no_backtick a = true ->
  replace_from (String "`" old) new 0 (a ++ t)
  = a ++ replace_from (String "`" old) new 0 t.
Proof.
  induction a as [|c a IH]; intros H; [reflexivity|].
  change (String c a ++ t) with (String c (a ++ t)).
  apply no_backtick_cons in H as [ne H].
  cbn [replace_from].
  destruct (prefix (String "`" old) (String c (a ++ t))) eqn:P.
  - apply prefix_cons in P as [<- _]. now elim ne.
  - cbn [append]. now rewrite IH.
Qed.

Lemma clean_text_inner_open (a b : string) :
  no_backtick a = true -> no_backtick b = true ->
  clean_text (a ++ "```json" ++ b) = strip (a ++ b).
Proof.
  intros Ha Hb. unfold clean_text, replace.
  rewrite replace_from_past by exact Ha.
  rewrite (replace_from_head "``json" EmptyString b "`"%char). cbn [append].
  rewrite (replace_from_absent _ _ b) by now apply no_backtick_contains.
  rewrite replace_from_absent; [reflexivity|].
  now apply no_backtick_contains, no_backtick_append.
Qed.

Lemma clean_text_inner_fence (a b : string) :
  no_backtick a = true -> no_backtick b = true -> prefix "json" b = false ->
  clean_text (a ++ "```" ++ b) = strip (a ++ b).
Proof.
  intros Ha Hb Hj. unfold clean_text, replace.
  rewrite replace_from_past by exact Ha.
  assert (E : replace_from "```json" EmptyString 0 ("```" ++ b) = "```" ++ b).
  { apply replace_from_absent.
    change ("```" ++ b) with (String "`" (String "`" (String "`" b))).
    cbn [contains].
    rewrite (no_backtick_contains _ _ Hb), orb_false_r.
    assert (P1 : prefix "```json" (String "`" (String "`" (String "`" b))) = false).
    { apply not_true_is_false. intros P.
      apply prefix_cons in P as [_ P]. apply prefix_cons in P as [_ P].
      apply prefix_cons in P as [_ P]. congruence. }
    assert (P2 : prefix "```json" (String "`" (String "`" b)) = false).
    { apply not_true_is_false. intros P.
      apply prefix_cons in P as [_ P]. apply prefix_cons in P as [_ P].
      now rewrite (no_backtick_prefix _ _ Hb) in P. }
    assert (P3 : prefix "```json" (String "`" b) = false).
    { apply not_true_is_false. intros P.
      apply prefix_cons in P as [_ P].
      now rewrite (no_backtick_prefix _ _ Hb) in P. }
    now rewrite P1, P2, P3. }
  rewrite E, replace_from_past by exact Ha.
  rewrite (replace_from_head "``" EmptyString b "`"%char). cbn [append].
  now rewrite replace_from_absent by now apply no_backtick_contains.
Qed.

End FenceFacts.

(* ================================================================== *)
(** ** Facts about dictionaries *)

Module DictFacts.
Import Json.

Lemma dict_get_set_same (k : string) (v : json) (d : dict) :
  dict_get k (dict_set k v d) = Some v.
Proof.
  induction d as [|[k' v'] d IH]; cbn [dict_set dict_get].
  - now rewrite String.eqb_refl.
  - destruct (String.eqb k k') eqn:E; cbn [dict_get]; rewrite E; [reflexivity | exact IH].
Qed.

Lemma dict_get_set_other (k k' : string) (v : json) (d : dict) :
  k' <> k -> dict_get k' (dict_set k v d) = dict_get k' d.
Proof.
  intros ne. induction d as [|[k0 v0] d IH]; cbn [dict_set dict_get].
  - now apply String.eqb_neq in ne as ->.
  - destruct (String.eqb k k0) eqn:E; cbn [dict_get].
    + apply String.eqb_eq in E as <-. now apply String.eqb_neq in ne as ->.
    + now rewrite IH.
Qed.

Lemma dict_keys_set (k : string) (v : json) (d : dict) :
  dict_mem k d = true -> dict_keys (dict_set k v d) = dict_keys d.
Proof.
  unfold dict_mem, dict_keys.
  induction d as [|[k0 v0] d IH]; cbn [dict_set dict_get map]; [discriminate|].
  destruct (String.eqb k k0) eqn:E; cbn [map fst]; [reflexivity|].
  intros H. now rewrite IH.
Qed.

Lemma dict_set_set (k : string) (v w : json) (d : dict) :
  dict_set k w (dict_set k v d) = dict_set k w d.
Proof.
  induction d as [|[k0 v0] d IH]; cbn [dict_set].
  - now rewrite String.eqb_refl.
  - destruct (String.eqb k k0) eqn:E; cbn [dict_set]; rewrite E; [reflexivity|].
    now rewrite IH.
Qed.

Lemma dict_set_other_items (k : string) (v : json) (d : dict) (k' : string) (x : json) :
  k' <> k -> In (k', x) (dict_set k v d) <-> In (k', x) d.
Proof.
  intros ne. induction d as [|[k0 v0] d IH]; cbn [dict_set In].
  - split; [intros [[= <- _]|[]] | intros []]. now elim ne.
  - destruct (String.eqb k k0) eqn:E; cbn [In].
    + apply String.eqb_eq in E as <-.
      split; (intros [[= <- _]|H]; [now elim ne | now right]).
    + now rewrite IH.
Qed.

End DictFacts.

(* ================================================================== *)
(** ** Facts about the analyzer *)

Module AnalyzerFacts.
Import PyStr Json PyJson Main Props StrFacts DictFacts.

Lemma in_strs_levels (s : string) :
  in_strs (JStr s) impact_levels = in_list s impact_levels.
Proof.
  unfold in_strs, in_list, impact_levels, eq_str. cbn [existsb].
  now rewrite !(String.eqb_sym s).
Qed.

Lemma normalized_level_valid (s : string) :
  in_strs (JStr (normalized_level s)) impact_levels = true.
Proof.
  unfold normalized_level.
  destruct (in_list (lower s) impact_levels) eqn:E.
  - now rewrite in_strs_levels.
  - reflexivity.
Qed.

(** *** Normalization *)

Lemma normalize_absent (d : dict) :
  dict_get "customer_impact_level" d = None ->
  normalize_impact (JObj d) = Ok (JObj d).
Proof.
  intros H. unfold normalize_impact, py_in, dict_mem. now rewrite H.
Qed.

Lemma normalize_text (d : dict) (s : string) :
  dict_get "customer_impact_level" d = Some (JStr s) ->
  normalize_impact (JObj d)
  = Ok (JObj (dict_set "customer_impact_level" (JStr (normalized_level s)) d)).
Proof.
  intros H. unfold normalize_impact, py_in, dict_mem. rewrite H.
  cbn [bind getitem py_lower setitem]. rewrite H.
  cbn [bind getitem py_lower setitem].
  rewrite dict_get_set_same. cbn [bind].
  rewrite in_strs_levels. unfold normalized_level.
  destruct (in_list (lower s) impact_levels); cbn [negb setitem]; [reflexivity|].
  now rewrite dict_set_set.
Qed.

Lemma normalize_not_text (d : dict) (v : json) :
  dict_get "customer_impact_level" d = Some v -> is_str v = false ->
  normalize_impact (JObj d) = Raise AttributeError.
Proof.
  intros H Hv. unfold normalize_impact, py_in, dict_mem. rewrite H.
  cbn [bind getitem]. rewrite H. cbn [bind].
  destruct v; try reflexivity; discriminate.
Qed.

(** A normalized value has a valid level if it has a level *)
Lemma normalize_level_valid (parsed r v : json) :
  normalize_impact parsed = Ok r ->
  field "customer_impact_level" r = Some v ->
  in_strs v impact_levels = true.
Proof.
  intros H F. destruct parsed as [| | | | s | items | d];
    try discriminate H.
  - unfold normalize_impact in H. cbn [py_in bind] in H.
    destruct (contains _ s); [discriminate|].
    injection H as <-. discriminate F.
  - unfold normalize_impact in H. cbn [py_in bind] in H.
    destruct (existsb _ items); [discriminate|].
    injection H as <-. discriminate F.
  - destruct (dict_get "customer_impact_level" d) as [x|] eqn:G.
    + destruct x as [| | | | s | |];
        try (rewrite (normalize_not_text d _ G) in H by reflexivity; discriminate H).
      rewrite (normalize_text d s G) in H. injection H as <-.
      cbn [field] in F. rewrite dict_get_set_same in F. injection F as <-.
      apply normalized_level_valid.
    + rewrite (normalize_absent d G) in H. injection H as <-.
      cbn [field] in F. congruence.
Qed.

(** Normalization touches no other field *)
Lemma normalize_other_field (parsed r : json) (k : string) :
  k <> "customer_impact_level" ->
  normalize_impact parsed = Ok r -> field k r = field k parsed.
Proof.
  intros ne H. destruct parsed as [| | | | s | items | d];
    try discriminate H.
  - unfold normalize_impact in H. cbn [py_in bind] in H.
    destruct (contains _ s); [discriminate|]. now injection H as <-.
  - unfold normalize_impact in H. cbn [py_in bind] in H.
    destruct (existsb _ items); [discriminate|]. now injection H as <-.
  - destruct (dict_get "customer_impact_level" d) as [x|] eqn:G.
    + destruct x as [| | | | s | |];
        try (rewrite (normalize_not_text d _ G) in H by reflexivity; discriminate H).
      rewrite (normalize_text d s G) in H. injection H as <-.
      cbn [field]. now apply dict_get_set_other.
    + rewrite (normalize_absent d G) in H. now injection H as <-.
Qed.

(** *** Extraction *)

Lemma extract_metadata_shaped (event : json) :
  extractable event = true ->
  extract_metadata event
  = Ok (type_of event, data_object_of event, object_id_of event).
Proof.
  destruct event as [| | | | | | d]; try discriminate.
  unfold extractable, extract_metadata, type_of, object_id_of, data_object_of.
  cbn [get bind field default_to].
  destruct (dict_get "data" d) as [data|]; cbn [absent_or default_to field].
  - destruct data as [| | | | | | dd]; try discriminate.
    cbn [data_shape get bind field].
    destruct (dict_get "object" dd) as [obj|]; cbn [absent_or default_to].
    + destruct obj as [| | | | | | od]; try discriminate.
      intros _. cbn [get bind field]. reflexivity.
    + intros _. cbn [get bind field dict_get]. reflexivity.
  - intros _. cbn [get bind field dict_get default_to]. reflexivity.
Qed.

Lemma extract_metadata_unshaped (event : json) :
  extractable event = false -> extract_metadata event = Raise AttributeError.
Proof.
  destruct event as [| | | | | | d]; try reflexivity.
  unfold extractable, extract_metadata. cbn [get bind].
  destruct (dict_get "data" d) as [data|]; cbn [absent_or]; [|discriminate].
  destruct data as [| | | | | | dd]; try reflexivity.
  cbn [data_shape get bind].
  destruct (dict_get "object" dd) as [obj|]; cbn [absent_or]; [|discriminate].
  destruct obj; try reflexivity; discriminate.
Qed.

Lemma webhook_event_shaped (event : json) :
  WebhookEvent event -> extractable event = true.
Proof. unfold WebhookEvent, webhook_event. intros H. now apply andb_true_iff in H. Qed.

Lemma webhook_event_type (event : json) :
  WebhookEvent event -> exists s, type_of event = JStr s.
Proof.
  unfold WebhookEvent, webhook_event, type_of. intros H.
  apply andb_true_iff in H as [_ H].
  destruct (field "type" event) as [t|]; [|now exists "unknown_type"].
  destruct t; try discriminate. now eexists.
Qed.

(** *** The fallback *)

Lemma fallback_impact_text (s : string) :
  fallback_impact (JStr s) = Ok (classify s).
Proof.
  unfold fallback_impact, classify. cbn [py_in bind].
  destruct (contains "payment_failed" s); [reflexivity|].
  destruct (contains "dispute" s); [reflexivity|].
  destruct (contains "invoice.upcoming" s); reflexivity.
Qed.

Lemma fallback_response_text (s : string) :
  fallback_response (JStr s) = Ok (fallback_for s).
Proof. unfold fallback_response. now rewrite fallback_impact_text. Qed.

Lemma classify_valid (s : string) :
  in_strs (JStr (classify s)) impact_levels = true.
Proof.
  unfold classify.
  destruct (contains "payment_failed" s); [reflexivity|].
  destruct (contains "dispute" s); [reflexivity|].
  destruct (contains "invoice.upcoming" s); reflexivity.
Qed.

(** *** The analyzer on a shaped event *)

Section Environment.
Variable json_loads : string -> option json.
Variable key : option string.
Variable client_post : request -> http_outcome.

Lemma llm_outcome_normalizes (event : json) :
  llm_outcome json_loads key client_post event
  = (parsed <- model_output json_loads key client_post event ;;
     normalize_impact parsed).
Proof.
  unfold llm_outcome, model_output, llm_analysis, interpret.
  destruct (call_service json_loads key client_post (request_for key event))
    as [sent [result_json|e]]; cbn [snd bind]; [|reflexivity].
  destruct (parse_completion json_loads result_json); reflexivity.
Qed.

Lemma analyze_shaped (event : json) :
  extractable event = true ->
  analyze_stripe_event json_loads key client_post event
  = (fst (call_service json_loads key client_post (request_for key event)),
     try_except (llm_outcome json_loads key client_post event)
                (fun _ => fallback_response (type_of event))).
Proof.
  intros H. unfold analyze_stripe_event, llm_outcome, llm_analysis.
  rewrite (extract_metadata_shaped event H).
  fold (request_for key event).
  destruct (call_service json_loads key client_post (request_for key event));
    reflexivity.
Qed.

Lemma analyze_success (event r : json) :
  extractable event = true ->
  llm_outcome json_loads key client_post event = Ok r ->
  snd (analyze_stripe_event json_loads key client_post event) = Ok r.
Proof. intros H E. rewrite (analyze_shaped event H). cbn [snd]. now rewrite E. Qed.

Lemma analyze_failure (event : json) (e : exn) :
  extractable event = true ->
  llm_outcome json_loads key client_post event = Raise e ->
  snd (analyze_stripe_event json_loads key client_post event)
  = fallback_response (type_of event).
Proof. intros H E. rewrite (analyze_shaped event H). cbn [snd]. now rewrite E. Qed.

(** Every listed failure of the service makes the [try] body raise *)
Lemma service_failure_raises (event : json) :
  service_failure json_loads (client_post (request_for key event)) ->
  raises (llm_outcome json_loads key client_post event) = true.
Proof.
  intros F. unfold llm_outcome, llm_analysis, call_service.
  destruct (key_missing key); [reflexivity|].
  cbn [snd]. unfold interpret, parse_completion.
  inversion F as [E | code text Hs E | code text Hl E
                 | code text rj e Hl Hr E | code text rj c Hl Hr Hc E
                 | code text rj c Hl Hr Hc E]; clear F.
  - reflexivity.
  - now rewrite Hs.
  - destruct (is_success code); [|reflexivity].
    unfold decode. now rewrite Hl.
  - destruct (is_success code); [|reflexivity].
    unfold decode. rewrite Hl. cbn [bind]. now rewrite Hr.
  - destruct (is_success code); [|reflexivity].
    unfold decode. rewrite Hl. cbn [bind]. rewrite Hr. cbn [bind].
    destruct c; try reflexivity; discriminate.
  - destruct (is_success code); [|reflexivity].
    unfold decode at 1. rewrite Hl. cbn [bind]. rewrite Hr.
    cbn [bind clean_content py_replace py_strip decode_value].
    fold (clean_text c). unfold decode. now rewrite Hc.
Qed.

End Environment.

End AnalyzerFacts.

(* ================================================================== *)
(** ** Properties of the pipeline *)

Import PyStr Json PyJson Main Props Examples.
Import StrFacts FenceFacts DictFacts AnalyzerFacts.

(** A webhook event passes the extraction and has a string for its type *)
Tactic Notation "webhook_shape" hyp(W) "as" ident(S) ident(s) ident(Hs) :=
  pose proof (webhook_event_shaped _ W) as S;
  destruct (webhook_event_type _ W) as [s Hs].

(** The fallback path on a shaped event whose type is the string [s] *)
Ltac fallback_path S E Hs :=
  rewrite (analyze_failure _ _ _ _ _ S E), Hs, fallback_response_text.

Lemma Substring_refl (s : string) : Substring s s.
Proof. exists EmptyString, EmptyString. cbn [append]. now rewrite append_empty_r. Qed.

Lemma Substring_trans (a b c : string) :
  Substring a b -> Substring b c -> Substring a c.
Proof.
  intros (x & y & ->) (u & v & ->).
  exists (u ++ x), (y ++ v). now rewrite !append_assoc.
Qed.

Lemma Substring_append_r (n a b : string) : Substring n b -> Substring n (a ++ b).
Proof. intros (x & y & ->). exists (a ++ x), y. now rewrite append_assoc. Qed.

Lemma Substring_append_l (n a b : string) : Substring n a -> Substring n (a ++ b).
Proof. intros (x & y & ->). exists x, (y ++ b). now rewrite !append_assoc. Qed.

(** A line of a text built by [unlines] occurs in the text *)
Lemma Substring_concat (sep x : string) (lines : list string) :
  In x lines -> Substring x (String.concat sep lines).
Proof.
  induction lines as [|l rest IH]; intros H; [destruct H|].
  cbn [String.concat]. destruct rest as [|l' rest'].
  - destruct H as [->|[]]. apply Substring_refl.
  - destruct H as [->|H].
    + apply Substring_append_l, Substring_refl.
    + now apply Substring_append_r, Substring_append_r, IH.
Qed.

(* ------------------------------------------------------------------ *)
(** *** C1: the event type of the result *)

(** C1, as stated, fails on the success path: for the event
    [{"type": "ping"}] and a model answer [{"event_type": "other"}], the
    returned [event_type] is ["other"], not the input's ["ping"]. *)
Lemma event_type_not_round_trip :
  WebhookEvent ping_event /\
  type_of ping_event = JStr "ping" /\
  exists r,
    snd (analyze_stripe_event Json.loads test_key
           (answering other_type_content) ping_event) = Ok r /\
    field "event_type" r = Some (JStr "other") /\
    field "event_type" r <> Some (type_of ping_event).
Proof.
  split; [reflexivity|]. split; [reflexivity|].
  exists (JObj [("event_type", JStr "other")]).
  split; [vm_compute; reflexivity|]. split; [reflexivity | discriminate].
Qed.

(** C1, amended: for every webhook event the analyzer returns a value; on
    the fallback path its [event_type] is the input event's [type] (or the
    sentinel ["unknown_type"]); on the success path its [event_type] is the
    one carried by the model's decoded output, which the code does not
    overwrite. *)
Theorem event_type_of_result
    (json_loads : string -> option json) (key : option string)
    (client_post : request -> http_outcome) (event : json) :
  WebhookEvent event ->
  exists r,
    snd (analyze_stripe_event json_loads key client_post event) = Ok r /\
    match llm_outcome json_loads key client_post event with
    | Raise _ =>
        fallback_response (type_of event) = Ok r /\
        field "event_type" r = Some (type_of event)
    | Ok _ =>
        exists parsed,
          model_output json_loads key client_post event = Ok parsed /\
          field "event_type" r = field "event_type" parsed
    end.
Proof.
  intros W. webhook_shape W as S s Hs.
  destruct (llm_outcome json_loads key client_post event) as [r|e] eqn:E.
  - exists r. split; [now apply analyze_success|].
    rewrite llm_outcome_normalizes in E.
    destruct (model_output json_loads key client_post event) as [parsed|];
      [|discriminate E].
    exists parsed. split; [reflexivity|].
    apply (normalize_other_field parsed r); [discriminate | exact E].
  - exists (fallback_for s).
    fallback_path S E Hs.
    repeat split.
Qed.

(** The fallback path of C1 on the ping event with the service unreachable *)
Lemma event_type_of_result_witness :
  WebhookEvent ping_event /\
  exists r,
    snd (analyze_stripe_event Json.loads test_key unreachable ping_event) = Ok r /\
    match llm_outcome Json.loads test_key unreachable ping_event with
    | Raise _ =>
        fallback_response (type_of ping_event) = Ok r /\
        field "event_type" r = Some (type_of ping_event)
    | Ok _ =>
        exists parsed,
          model_output Json.loads test_key unreachable ping_event = Ok parsed /\
          field "event_type" r = field "event_type" parsed
    end.
Proof.
  split; [reflexivity|].
  apply (event_type_of_result Json.loads test_key unreachable ping_event).
  reflexivity.
Defined.

(* ------------------------------------------------------------------ *)
(** *** C2: the impact level of the result *)

(** C2, as stated, fails when the model's object omits the level: the
    answer [{"summary": "Card declined"}] is returned as it is, with no
    [customer_impact_level] at all. *)
Lemma impact_level_can_be_missing :
  WebhookEvent ping_event /\
  exists r,
    snd (analyze_stripe_event Json.loads test_key
           (answering no_level_content) ping_event) = Ok r /\
    r = JObj [("summary", JStr "Card declined")] /\
    field "customer_impact_level" r = None.
Proof.
  split; [reflexivity|]. eexists. split; [vm_compute; reflexivity|].
  split; reflexivity.
Qed.

(** C2, amended: for every webhook event the analyzer returns a value, and
    whenever that value carries a [customer_impact_level] it is one of
    ["low"], ["medium"], ["high"]: a level sent as a string is lower-cased
    and, if still outside the set, coerced to ["medium"] (so ["HIGH"] gives
    ["high"], ["Critical"] gives ["medium"]).  An object that omits the
    level is returned without it. *)
Theorem impact_level_closed_when_present
    (json_loads : string -> option json) (key : option string)
    (client_post : request -> http_outcome) (event : json) :
  WebhookEvent event ->
  exists r,
    snd (analyze_stripe_event json_loads key client_post event) = Ok r /\
    (forall v, field "customer_impact_level" r = Some v ->
               in_strs v impact_levels = true) /\
    (forall d s,
        model_output json_loads key client_post event = Ok (JObj d) ->
        dict_get "customer_impact_level" d = Some (JStr s) ->
        field "customer_impact_level" r = Some (JStr (normalized_level s)) /\
        (in_list (lower s) impact_levels = true -> normalized_level s = lower s) /\
        (in_list (lower s) impact_levels = false -> normalized_level s = "medium")) /\
    (forall d,
        model_output json_loads key client_post event = Ok (JObj d) ->
        dict_get "customer_impact_level" d = None -> r = JObj d) /\
    normalized_level "HIGH" = "high" /\
    normalized_level "Critical" = "medium".
Proof.
  intros W. webhook_shape W as S s Hs.
  assert (L : forall t,
             (in_list (lower t) impact_levels = true ->
              normalized_level t = lower t) /\
             (in_list (lower t) impact_levels = false ->
              normalized_level t = "medium")).
  { intros t. unfold normalized_level. split; now intros ->. }
  pose proof (llm_outcome_normalizes json_loads key client_post event) as N.
  destruct (llm_outcome json_loads key client_post event) as [r|e] eqn:E.
  - exists r. split; [now apply analyze_success|].
    destruct (model_output json_loads key client_post event) as [parsed|];
      [|discriminate N].
    cbn [bind] in N. symmetry in N.
    split; [|split; [|split; [|split; reflexivity]]].
    + intros v. now apply (normalize_level_valid parsed).
    + intros d t [= ->] G. split; [|apply L].
      rewrite (normalize_text d t G) in N. injection N as <-.
      cbn [field]. now rewrite dict_get_set_same.
    + intros d [= ->] A. rewrite (normalize_absent d A) in N. congruence.
  - exists (fallback_for s).
    fallback_path S E Hs.
    split; [reflexivity|].
    split; [|split; [|split; [|split; reflexivity]]].
    + intros v [= <-]. apply classify_valid.
    + intros d t M G. rewrite M in N. cbn [bind] in N.
      rewrite (normalize_text d t G) in N. discriminate N.
    + intros d M A. rewrite M in N. cbn [bind] in N.
      rewrite (normalize_absent d A) in N. discriminate N.
Qed.

(** C2 on an answer whose level is HIGH *)
Lemma impact_level_closed_when_present_witness :
  WebhookEvent payment_failed_event /\
  exists r,
    snd (analyze_stripe_event Json.loads test_key
           (answering high_object_text) payment_failed_event) = Ok r /\
    field "customer_impact_level" r = Some (JStr "high").
Proof.
  split; [reflexivity|].
  destruct (impact_level_closed_when_present Json.loads test_key
              (answering high_object_text) payment_failed_event)
    as (r & Hr & _ & Hs & _); [reflexivity|].
  exists r. split; [exact Hr|].
  apply (Hs [("summary", JStr "Card declined");
             ("customer_impact_level", JStr "HIGH")] "HIGH");
    vm_compute; reflexivity.
Defined.

(* ------------------------------------------------------------------ *)
(** *** C3: extraction and prompt construction *)

(** C3, as stated, fails on a wrong type at a nested level: for the event
    [{"data": "oops"}] the extraction raises [AttributeError] before the
    [try], so the analyzer raises.  And a missing [data.object] puts no
    empty-object placeholder in the prompt: the prompt built for
    [{"type": "ping"}] holds no ["{}"]. *)
Lemma extraction_raises_on_wrong_type :
  field "data" malformed_event = Some (JStr "oops") /\
  extract_metadata malformed_event = Raise AttributeError /\
  analyze_stripe_event Json.loads test_key unreachable malformed_event
    = ([], Raise AttributeError) /\
  field "data" ping_event = None /\
  contains "{}" (user_prompt_of ping_event) = false.
Proof. repeat split; vm_compute; reflexivity. Qed.

(** C3, amended: for every event that is a JSON object whose [data], when
    present, is an object and whose [data.object], when present, is an
    object, the extraction does not raise; a missing [type] yields
    ["unknown_type"], a missing [data] or [data.object] yields the empty
    object, a missing [id] yields ["unknown_id"]; the user prompt embeds
    the event type and the whole event serialized by
    [json.dumps(event, indent=2)], which is ["{}"] for the empty event. *)
Theorem extraction_total_on_shaped_events (event : json) :
  extractable event = true ->
  extract_metadata event
    = Ok (type_of event, data_object_of event, object_id_of event) /\
  (field "type" event = None -> type_of event = JStr "unknown_type") /\
  (field "data" event = None -> data_object_of event = JObj []) /\
  (forall data, field "data" event = Some data -> field "object" data = None ->
                data_object_of event = JObj []) /\
  (field "id" (data_object_of event) = None ->
   object_id_of event = JStr "unknown_id") /\
  Substring (str (type_of event)) (user_prompt_of event) /\
  Substring (dumps_indent2 event) (user_prompt_of event) /\
  dumps_indent2 empty_event = "{}".
Proof.
  intros S. split; [now apply extract_metadata_shaped|].
  split; [unfold type_of; now intros ->|].
  split; [unfold data_object_of; now intros ->|].
  split; [unfold data_object_of; intros data -> F; cbn [default_to]; now rewrite F|].
  split; [unfold object_id_of; now intros ->|].
  split; [|split; [|reflexivity]].
  - apply (Substring_trans _ ("Event Type: " ++ str (type_of event))).
    + apply Substring_append_r, Substring_refl.
    + apply Substring_concat. cbn [In]. auto 10.
  - apply Substring_concat. cbn [In]. auto 10.
Qed.

(** C3 on the empty event *)
Lemma extraction_total_on_shaped_events_witness :
  extractable empty_event = true /\
  extract_metadata empty_event
    = Ok (JStr "unknown_type", JObj [], JStr "unknown_id") /\
  Substring "{}" (user_prompt_of empty_event).
Proof.
  split; [reflexivity|].
  destruct (extraction_total_on_shaped_events empty_event eq_refl)
    as (E & _ & _ & _ & _ & _ & P & D).
  split; [exact E|]. rewrite <- D. exact P.
Defined.

(* ------------------------------------------------------------------ *)
(** *** C4: the analyzer as the error boundary *)

(** C4, as stated, fails on events the code really receives: for
    [{"type": null}] with the service unreachable the [in] tests of the
    handler raise [TypeError], and for [{"data": "oops"}] the extraction
    raises [AttributeError] before the [try]; both reach the caller.  And
    what is returned need not be an AnalysisResult: for the answer [[1, 2]]
    the analyzer returns that array. *)
Lemma error_boundary_leaks :
  field "type" RouteExamples.null_type_event = Some JNull /\
  snd (analyze_stripe_event Json.loads test_key unreachable
         RouteExamples.null_type_event) = Raise TypeError /\
  snd (analyze_stripe_event Json.loads test_key unreachable malformed_event)
    = Raise AttributeError /\
  WebhookEvent ping_event /\
  snd (analyze_stripe_event Json.loads test_key
         (answering RouteExamples.array_body) ping_event)
    = Ok (JList [JInt 1; JInt 2]).
Proof. repeat split; vm_compute; reflexivity. Qed.

(** C4, amended: for every event that is a JSON object whose [type], when
    present, is a string and whose [data] and [data.object], when present,
    are objects, and for every behaviour of the service, the analyzer
    raises nothing and returns a value: when the [try] body fails, the
    fallback object for the event's type, with its five fields; when it
    succeeds, the decoded output of the model after the normalization of
    the level.  Each listed failure (network error or timeout, non-2xx
    status, non-JSON body, missing choices/message/content structure,
    unparseable content) gives the fallback object. *)
Theorem analyzer_is_error_boundary
    (json_loads : string -> option json) (key : option string)
    (client_post : request -> http_outcome) (event : json) :
  WebhookEvent event ->
  exists s,
    type_of event = JStr s /\
    (exists r,
        snd (analyze_stripe_event json_loads key client_post event) = Ok r /\
        match llm_outcome json_loads key client_post event with
        | Ok r' =>
            r = r' /\
            exists parsed,
              model_output json_loads key client_post event = Ok parsed /\
              normalize_impact parsed = Ok r
        | Raise _ => r = fallback_for s
        end) /\
    (service_failure json_loads (client_post (request_for key event)) ->
     snd (analyze_stripe_event json_loads key client_post event)
     = Ok (fallback_for s)).
Proof.
  intros W. webhook_shape W as S s Hs.
  exists s. split; [exact Hs|]. split.
  - pose proof (llm_outcome_normalizes json_loads key client_post event) as N.
    destruct (llm_outcome json_loads key client_post event) as [r|e] eqn:E.
    + exists r. split; [now apply analyze_success|]. split; [reflexivity|].
      destruct (model_output json_loads key client_post event) as [parsed|];
        [|discriminate N].
      exists parsed. now split.
    + exists (fallback_for s).
      fallback_path S E Hs.
      now split.
  - intros F. apply (service_failure_raises json_loads key) in F.
    destruct (llm_outcome json_loads key client_post event) as [r|e] eqn:E;
      [discriminate F|].
    now fallback_path S E Hs.
Qed.

(** C4 on an answer whose content is not JSON *)
Lemma analyzer_is_error_boundary_witness :
  WebhookEvent payment_failed_event /\
  service_failure Json.loads
    (answering "not json" (request_for test_key payment_failed_event)) /\
  snd (analyze_stripe_event Json.loads test_key (answering "not json")
         payment_failed_event) = Ok (fallback_for "invoice.payment_failed").
Proof.
  assert (F : service_failure Json.loads
                (answering "not json" (request_for test_key payment_failed_event))).
  { change (service_failure Json.loads (Response 200 (completion_body "not json"))).
    apply (unparseable_content Json.loads 200 (completion_body "not json")
             (JObj [("choices",
                     JList [JObj [("message",
                                   JObj [("role", JStr "assistant");
                                         ("content", JStr "not json")])]])])
             "not json");
      vm_compute; reflexivity. }
  split; [reflexivity|]. split; [exact F|].
  destruct (analyzer_is_error_boundary Json.loads test_key (answering "not json")
              payment_failed_event eq_refl) as (s & T & _ & H).
  injection T as <-. exact (H F).
Defined.

(* ------------------------------------------------------------------ *)
(** *** C5: the fallback classification *)

(** C5: for every string event type the fallback classifier returns the
    impact of the first rule that matches, by substring containment:
    ["payment_failed"] gives ["high"], else ["dispute"] gives ["high"],
    else ["invoice.upcoming"] gives ["low"], else ["medium"]; and the
    fallback result is a function of the event's type string alone. *)
Theorem fallback_classification (event_type : string) :
  fallback_impact (JStr event_type) = Ok (classify event_type) /\
  (Substring "payment_failed" event_type -> classify event_type = "high") /\
  (~ Substring "payment_failed" event_type ->
   Substring "dispute" event_type -> classify event_type = "high") /\
  (~ Substring "payment_failed" event_type ->
   ~ Substring "dispute" event_type ->
   Substring "invoice.upcoming" event_type -> classify event_type = "low") /\
  (~ Substring "payment_failed" event_type ->
   ~ Substring "dispute" event_type ->
   ~ Substring "invoice.upcoming" event_type -> classify event_type = "medium") /\
  (forall json_loads key client_post event,
      WebhookEvent event -> type_of event = JStr event_type ->
      raises (llm_outcome json_loads key client_post event) = true ->
      snd (analyze_stripe_event json_loads key client_post event)
      = Ok (fallback_for event_type)).
Proof.
  split; [apply fallback_impact_text|].
  split.
  { intros A. apply contains_Substring in A. unfold classify. now rewrite A. }
  split.
  { intros A B. apply not_contains_Substring in A. apply contains_Substring in B.
    unfold classify. now rewrite A, B. }
  split.
  { intros A B C. apply not_contains_Substring in A, B.
    apply contains_Substring in C. unfold classify. now rewrite A, B, C. }
  split.
  { intros A B C. apply not_contains_Substring in A, B, C.
    unfold classify. now rewrite A, B, C. }
  intros json_loads key client_post event W T R.
  pose proof (webhook_event_shaped _ W) as S.
  destruct (llm_outcome json_loads key client_post event) as [r|e] eqn:E;
    [discriminate R|].
  now rewrite (analyze_failure _ _ _ _ e S E), T, fallback_response_text.
Qed.

(** C5 on a dispute event type *)
Lemma fallback_classification_witness :
  ~ Substring "payment_failed" "charge.dispute.created" /\
  Substring "dispute" "charge.dispute.created" /\
  fallback_impact (JStr "charge.dispute.created") = Ok "high".
Proof.
  assert (A : ~ Substring "payment_failed" "charge.dispute.created")
    by (apply not_contains_Substring; reflexivity).
  assert (B : Substring "dispute" "charge.dispute.created")
    by (apply contains_Substring; reflexivity).
  split; [exact A|]. split; [exact B|].
  destruct (fallback_classification "charge.dispute.created")
    as (I & _ & D & _).
  rewrite I, (D A B). reflexivity.
Defined.

(* ------------------------------------------------------------------ *)
(** *** C6: no key, no request *)

(** C6: for every webhook event, when no API key is configured the
    analyzer sends no request and returns the fallback result for the
    event's type, which is the value every other failure path returns. *)
Theorem missing_key_short_circuit
    (json_loads : string -> option json) (key : option string)
    (client_post : request -> http_outcome) (event : json) :
  WebhookEvent event ->
  key_missing key = true ->
  fst (analyze_stripe_event json_loads key client_post event) = [] /\
  (exists s, type_of event = JStr s /\
     snd (analyze_stripe_event json_loads key client_post event)
     = Ok (fallback_for s)) /\
  (forall key' client_post',
      raises (llm_outcome json_loads key' client_post' event) = true ->
      snd (analyze_stripe_event json_loads key' client_post' event)
      = snd (analyze_stripe_event json_loads key client_post event)).
Proof.
  intros W K. webhook_shape W as S s Hs.
  assert (E : llm_outcome json_loads key client_post event = Raise ValueError).
  { unfold llm_outcome, llm_analysis, call_service. now rewrite K. }
  assert (R : snd (analyze_stripe_event json_loads key client_post event)
              = Ok (fallback_for s)).
  { now fallback_path S E Hs. }
  split; [|split].
  - rewrite (analyze_shaped _ _ _ _ S). unfold call_service. now rewrite K.
  - now exists s.
  - intros key' client_post' F. rewrite R.
    destruct (llm_outcome json_loads key' client_post' event) as [r|e] eqn:E';
      [discriminate F|].
    now fallback_path S E' Hs.
Qed.

(** C6 with no key configured *)
Lemma missing_key_short_circuit_witness :
  WebhookEvent dispute_event /\
  key_missing None = true /\
  fst (analyze_stripe_event Json.loads None (answering high_object_text)
         dispute_event) = [].
Proof.
  split; [reflexivity|]. split; [reflexivity|].
  apply (missing_key_short_circuit Json.loads None (answering high_object_text)
           dispute_event); reflexivity.
Defined.

(* ------------------------------------------------------------------ *)
(** *** C7: the fallback output for a failed payment *)

(** C7: for the event [{"type": "invoice.payment_failed", "data":
    {"object": {"id": "in_12345"}}}] and an unreachable service, whatever
    the key, the analyzer returns exactly the fallback object: the event
    type, the summary template naming that type and saying that automated
    analysis is unavailable, root cause ["N/A (LLM unavailable)"], impact
    ["high"] and the single action ["Check Stripe Dashboard manually."]. *)
Theorem payment_failed_fallback_output
    (json_loads : string -> option json) (key : option string) :
  snd (analyze_stripe_event json_loads key unreachable payment_failed_event)
  = Ok (JObj [
      ("event_type", JStr "invoice.payment_failed");
      ("summary",
       JStr "Received event invoice.payment_failed. Automated analysis unavailable.");
      ("root_cause", JStr "N/A (LLM unavailable)");
      ("customer_impact_level", JStr "high");
      ("recommended_actions", JList [JStr "Check Stripe Dashboard manually."])
    ]).
Proof.
  assert (E : raises (llm_outcome json_loads key unreachable payment_failed_event)
              = true).
  { unfold llm_outcome, llm_analysis, call_service.
    destruct (key_missing key); reflexivity. }
  destruct (llm_outcome json_loads key unreachable payment_failed_event)
    as [r|e] eqn:O; [discriminate E|].
  now rewrite (analyze_failure json_loads key unreachable payment_failed_event
                 e eq_refl O).
Qed.

(* ------------------------------------------------------------------ *)
(** *** C8: code fences and the case of the level *)

(** The decoded model output, when the service answers with a completion
    whose content is a string *)
Lemma model_output_of_content
    (json_loads : string -> option json) (key : option string)
    (client_post : request -> http_outcome) (event : json)
    (status_code : Z) (text : string) (result_json : json) (content : string) :
  key_missing key = false ->
  client_post (request_for key event) = Response status_code text ->
  is_success status_code = true ->
  json_loads text = Some result_json ->
  read_completion result_json = Ok (JStr content) ->
  model_output json_loads key client_post event
  = decode json_loads (clean_text content).
Proof.
  intros K P S L R. unfold model_output, call_service.
  rewrite K, P, S. cbn [snd]. unfold decode at 1. rewrite L. cbn [bind].
  unfold parse_completion. rewrite R. reflexivity.
Qed.

(** C8, as stated, fails when the wrapped object holds a fence marker of
    its own: [tricky_object_text] is a valid object whose level is
    ["HIGH"], yet once it is wrapped in fences the cleanup also removes the
    marker inside its second key, the two keys collide, and the level that
    is returned is ["medium"]. *)
Lemma fenced_high_not_always_high :
  Json.loads tricky_object_text
    = Some (JObj [("customer_impact_level", JStr "HIGH");
                  ("customer_```impact_level", JStr "n/a")]) /\
  WebhookEvent payment_failed_event /\
  snd (analyze_stripe_event Json.loads test_key
         (answering (fenced tricky_object_text)) payment_failed_event)
    = Ok (JObj [("customer_impact_level", JStr "medium")]).
Proof. repeat split; vm_compute; reflexivity. Qed.

(** C8, amended: for every webhook event, if the service answers with
    content that wraps in [```json ... ```] fences (or gives bare) the text
    of a JSON object, that text holds no triple backtick of its own, and the
    object's level is ["HIGH"], then the cleanup leaves exactly the stripped
    text and the analyzer returns the object with the level ["high"]. *)
Theorem fenced_high_is_normalized
    (json_loads : string -> option json) (key : option string)
    (client_post : request -> http_outcome) (event : json)
    (status_code : Z) (text : string) (result_json : json)
    (content body : string) (d : dict) :
  WebhookEvent event ->
  key_missing key = false ->
  client_post (request_for key event) = Response status_code text ->
  is_success status_code = true ->
  json_loads text = Some result_json ->
  read_completion result_json = Ok (JStr content) ->
  content = fenced body \/ content = body ->
  contains "```" body = false ->
  json_loads (strip body) = Some (JObj d) ->
  dict_get "customer_impact_level" d = Some (JStr "HIGH") ->
  clean_text content = strip body /\
  exists r,
    snd (analyze_stripe_event json_loads key client_post event) = Ok r /\
    r = JObj (dict_set "customer_impact_level" (JStr "high") d) /\
    field "customer_impact_level" r = Some (JStr "high").
Proof.
  intros W K P S L R C B D H.
  assert (T : clean_text content = strip body).
  { destruct C as [-> | ->];
      [now apply clean_text_fenced | now apply clean_text_plain]. }
  split; [exact T|].
  eexists. split; [|split; [reflexivity|]].
  - apply analyze_success; [now apply webhook_event_shaped|].
    rewrite llm_outcome_normalizes.
    rewrite (model_output_of_content _ _ _ _ _ _ _ _ K P S L R), T.
    unfold decode. rewrite D. cbn [bind].
    now rewrite (normalize_text d "HIGH" H).
  - cbn [field]. apply dict_get_set_same.
Qed.

(** C8 on a fenced object with surrounding line feeds *)
Lemma fenced_high_is_normalized_witness :
  WebhookEvent payment_failed_event /\
  exists r,
    snd (analyze_stripe_event Json.loads test_key
           (answering (fenced (nl ++ high_object_text ++ nl)))
           payment_failed_event) = Ok r /\
    r = JObj [("summary", JStr "Card declined");
              ("customer_impact_level", JStr "high")] /\
    field "customer_impact_level" r = Some (JStr "high").
Proof.
  split; [reflexivity|].
  apply (fenced_high_is_normalized Json.loads test_key
           (answering (fenced (nl ++ high_object_text ++ nl)))
           payment_failed_event 200
           (completion_body (fenced (nl ++ high_object_text ++ nl)))
           (JObj [("choices",
                   JList [JObj [("message",
                                 JObj [("role", JStr "assistant");
                                       ("content",
                                        JStr (fenced (nl ++ high_object_text ++ nl)))])]])])
           (fenced (nl ++ high_object_text ++ nl))
           (nl ++ high_object_text ++ nl)
           [("summary", JStr "Card declined");
            ("customer_impact_level", JStr "HIGH")]);
    try reflexivity; try (vm_compute; reflexivity).
  now left.
Defined.

(* ------------------------------------------------------------------ *)
(** *** C9: what the success path changes *)

(** C9, as stated, fails when the level of the decoded object is not a
    string: for the answer [{"summary": "Card declined",
    "customer_impact_level": 5}] lower-casing raises, and the analyzer
    returns the fallback object, whose keys are not those of the answer. *)
Lemma numeric_level_routes_to_fallback :
  WebhookEvent ping_event /\
  model_output Json.loads test_key (answering numeric_level_content) ping_event
    = Ok (JObj [("summary", JStr "Card declined");
                ("customer_impact_level", JInt 5)]) /\
  snd (analyze_stripe_event Json.loads test_key
         (answering numeric_level_content) ping_event)
    = Ok (fallback_for "ping") /\
  dict_keys [("summary", JStr "Card declined"); ("customer_impact_level", JInt 5)]
    <> match fallback_for "ping" with JObj d => dict_keys d | _ => [] end.
Proof.
  split; [reflexivity|]. split; [vm_compute; reflexivity|].
  split; [vm_compute; reflexivity | discriminate].
Qed.

(** C9, amended: when the service answers and the cleaned content decodes
    to a JSON object whose level, if present, is a string, the analyzer
    returns that object with at most the value of [customer_impact_level]
    changed: the keys are the same, in the same order; every other key has
    the same value; no item with another key is added or removed; an
    object without a level is returned unchanged. *)
Theorem success_path_frame
    (json_loads : string -> option json) (key : option string)
    (client_post : request -> http_outcome) (event : json) (d : dict) :
  WebhookEvent event ->
  model_output json_loads key client_post event = Ok (JObj d) ->
  absent_or is_str (dict_get "customer_impact_level" d) = true ->
  exists d',
    snd (analyze_stripe_event json_loads key client_post event) = Ok (JObj d') /\
    dict_keys d' = dict_keys d /\
    (forall k, k <> "customer_impact_level" -> dict_get k d' = dict_get k d) /\
    (forall k x, k <> "customer_impact_level" -> In (k, x) d' <-> In (k, x) d) /\
    (dict_get "customer_impact_level" d = None -> d' = d) /\
    (forall s, dict_get "customer_impact_level" d = Some (JStr s) ->
               d' = dict_set "customer_impact_level" (JStr (normalized_level s)) d).
Proof.
  intros W M A. pose proof (webhook_event_shaped _ W) as S.
  pose proof (llm_outcome_normalizes json_loads key client_post event) as N.
  rewrite M in N. cbn [bind] in N.
  destruct (dict_get "customer_impact_level" d) as [v|] eqn:G.
  - destruct v as [| | | | s | |]; try discriminate A.
    rewrite (normalize_text d s G) in N.
    exists (dict_set "customer_impact_level" (JStr (normalized_level s)) d).
    split; [now apply analyze_success|].
    split; [apply dict_keys_set; unfold dict_mem; now rewrite G|].
    split; [intros k ne; now apply dict_get_set_other|].
    split; [intros k x ne; now apply dict_set_other_items|].
    split; [discriminate | now intros s' [= <-]].
  - rewrite (normalize_absent d G) in N.
    exists d. split; [now apply analyze_success|].
    repeat split; try tauto; discriminate.
Qed.

(** C9 on an answer without a level *)
Lemma success_path_frame_witness :
  WebhookEvent ping_event /\
  exists d',
    snd (analyze_stripe_event Json.loads test_key
           (answering no_level_content) ping_event) = Ok (JObj d') /\
    d' = [("summary", JStr "Card declined")].
Proof.
  split; [reflexivity|].
  destruct (success_path_frame Json.loads test_key (answering no_level_content)
              ping_event [("summary", JStr "Card declined")])
    as (d' & R & _ & _ & _ & U & _);
    [reflexivity | vm_compute; reflexivity | reflexivity |].
  exists d'. split; [exact R | now apply U].
Defined.

(* ------------------------------------------------------------------ *)
(** *** C10: the fence markers are removed everywhere *)

(** C10: the cleanup deletes the markers wherever they stand: no
    [```] (hence no [```json]) is left in the cleaned content; a marker
    between two backtick-free texts is deleted and the texts are joined;
    and there is a success response, a valid object whose summary holds
    triple backticks, for which the returned summary has lost them. *)
Theorem fences_removed_everywhere :
  (forall content,
      clean_content (JStr content) = Ok (JStr (clean_text content)) /\
      contains "```" (clean_text content) = false /\
      contains "```json" (clean_text content) = false) /\
  (forall a b,
      no_backtick a = true -> no_backtick b = true ->
      clean_text (a ++ "```json" ++ b) = strip (a ++ b) /\
      (prefix "json" b = false -> clean_text (a ++ "```" ++ b) = strip (a ++ b))) /\
  (Json.loads backtick_summary_content
     = Some (JObj [("summary", JStr "run ```ls``` now");
                   ("customer_impact_level", JStr "low")]) /\
   snd (analyze_stripe_event Json.loads test_key
          (answering backtick_summary_content) ping_event)
     = Ok (JObj [("summary", JStr "run ls now");
                 ("customer_impact_level", JStr "low")])).
Proof.
  split; [|split].
  - intros content. split; [reflexivity|].
    split; [apply clean_text_no_fence|].
    apply (contains_longer "```"); [reflexivity | apply clean_text_no_fence].
  - intros a b Ha Hb. split.
    + now apply clean_text_inner_open.
    + intros Hj. now apply clean_text_inner_fence.
  - split; vm_compute; reflexivity.
Qed.

(** C10 on a marker between two words *)
Lemma fences_removed_everywhere_witness :
  no_backtick "run " = true /\ no_backtick "ls now" = true /\
  clean_text ("run " ++ "```" ++ "ls now") = "run ls now".
Proof.
  split; [reflexivity|]. split; [reflexivity|].
  destruct fences_removed_everywhere as (_ & I & _).
  destruct (I "run " "ls now" eq_refl eq_refl) as [_ F].
  rewrite (F eq_refl). reflexivity.
Defined.

(* ================================================================== *)
(** ** Further properties of the analyzer *)

Module MoreFacts.
Import PyStr Json PyJson Main Props Route.
Import StrFacts FenceFacts DictFacts AnalyzerFacts.

(** *** The fallback on any value of [type] *)

Lemma fallback_impact_valid (t : json) (impact : string) :
  fallback_impact t = Ok impact -> in_list impact impact_levels = true.
Proof.
  unfold fallback_impact.
  destruct (py_in "payment_failed" t) as [[|]|]; cbn [bind];
    [now intros [= <-] | | discriminate].
  destruct (py_in "dispute" t) as [[|]|]; cbn [bind];
    [now intros [= <-] | | discriminate].
  destruct (py_in "invoice.upcoming" t) as [[|]|]; cbn [bind];
    [now intros [= <-] | now intros [= <-] | discriminate].
Qed.

Lemma fallback_impact_iterable (t : json) :
  iterable t = true -> exists impact, fallback_impact t = Ok impact.
Proof.
  intros I. unfold fallback_impact.
  destruct t; try discriminate I; cbn [py_in bind];
    repeat match goal with
           | |- context [if ?b then _ else _] => destruct b
           end; eexists; reflexivity.
Qed.

Lemma fallback_response_iterable (t : json) :
  iterable t = true -> exists r, fallback_response t = Ok r.
Proof.
  intros I. destruct (fallback_impact_iterable t I) as [impact H].
  unfold fallback_response. rewrite H. cbn [bind]. eexists. reflexivity.
Qed.

Lemma fallback_response_scalar (t : json) :
  iterable t = false -> fallback_response t = Raise TypeError.
Proof. destruct t; try discriminate; reflexivity. Qed.

Lemma fallback_response_level (t r v : json) :
  fallback_response t = Ok r ->
  field "customer_impact_level" r = Some v ->
  in_strs v impact_levels = true.
Proof.
  unfold fallback_response.
  destruct (fallback_impact t) as [impact|] eqn:F; cbn [bind]; [|discriminate].
  intros [= <-] [= <-]. rewrite in_strs_levels.
  now apply (fallback_impact_valid t).
Qed.

(** *** Stripping twice *)

Lemma lstrip_head (s : string) (c : ascii) (r : string) :
  lstrip s = String c r -> is_space c = false.
Proof.
  induction s as [|x s IH]; cbn [lstrip]; [discriminate|].
  destruct (is_space x) eqn:E; [exact IH|]. now intros [= <- _].
Qed.

Lemma rstrip_twice (s : string) : rstrip (rstrip s) = rstrip s.
Proof.
  induction s as [|c s IH]; [reflexivity|].
  cbn [rstrip]. destruct (rstrip s) as [|x y] eqn:R.
  - destruct (is_space c) eqn:E; [reflexivity|].
    cbn [rstrip]. now rewrite E.
  - change (rstrip (String c (String x y)))
      with (match rstrip (String x y) with
            | EmptyString =>
                if is_space c then EmptyString else String c EmptyString
            | r => String c r
            end).
    now rewrite IH.
Qed.

Lemma lstrip_rstrip (s : string) (c : ascii) (r : string) :
  s = String c r -> is_space c = false -> lstrip (rstrip s) = rstrip s.
Proof.
  intros -> E. cbn [rstrip].
  destruct (rstrip r); [rewrite E|]; cbn [lstrip]; now rewrite E.
Qed.

Lemma strip_twice (s : string) : strip (strip s) = strip s.
Proof.
  unfold strip. destruct (lstrip s) as [|c r] eqn:L; [reflexivity|].
  rewrite (lstrip_rstrip (String c r) c r eq_refl (lstrip_head _ _ _ L)).
  apply rstrip_twice.
Qed.

(** *** The normalized level *)

Lemma in_levels_cases (s : string) :
  in_list s impact_levels = true -> s = "low" \/ s = "medium" \/ s = "high".
Proof.
  unfold in_list, impact_levels. cbn [existsb].
  rewrite !orb_true_iff, !String.eqb_eq. intuition discriminate.
Qed.

Lemma normalized_level_in (s : string) :
  in_list (normalized_level s) impact_levels = true.
Proof.
  unfold normalized_level.
  destruct (in_list (lower s) impact_levels) eqn:E; [exact E | reflexivity].
Qed.

Lemma normalized_level_twice (s : string) :
  normalized_level (normalized_level s) = normalized_level s.
Proof.
  destruct (in_levels_cases _ (normalized_level_in s)) as [-> | [-> | ->]];
    reflexivity.
Qed.

(** *** The analyzer on any event *)

Section Environment.
Variable json_loads : string -> option json.
Variable key : option string.
Variable client_post : request -> http_outcome.

Lemma analyze_unshaped (event : json) :
  extractable event = false ->
  analyze_stripe_event json_loads key client_post event
  = ([], Raise AttributeError).
Proof.
  intros U. unfold analyze_stripe_event.
  now rewrite (extract_metadata_unshaped event U).
Qed.

Lemma analyze_ok_shaped (event r : json) :
  snd (analyze_stripe_event json_loads key client_post event) = Ok r ->
  extractable event = true.
Proof.
  destruct (extractable event) eqn:S; [reflexivity|].
  rewrite (analyze_unshaped event S). discriminate.
Qed.

Lemma analyze_level_valid (event r v : json) :
  snd (analyze_stripe_event json_loads key client_post event) = Ok r ->
  field "customer_impact_level" r = Some v ->
  in_strs v impact_levels = true.
Proof.
  intros A. pose proof (analyze_ok_shaped event r A) as S.
  rewrite (analyze_shaped _ _ _ _ S) in A. cbn [snd] in A.
  pose proof (llm_outcome_normalizes json_loads key client_post event) as N.
  destruct (llm_outcome json_loads key client_post event) as [r'|e];
    cbn [try_except] in A.
  - injection A as ->.
    destruct (model_output json_loads key client_post event) as [parsed|];
      [|discriminate N].
    cbn [bind] in N. symmetry in N. now apply (normalize_level_valid parsed).
  - exact (fallback_response_level _ r v A).
Qed.

End Environment.

(** *** The response model *)

Lemma validate_missing (d : dict) (k : string) :
  In k field_names -> dict_get k d = None -> validate (JObj d) = None.
Proof.
  unfold field_names, validate, required. cbn [In].
  intros [<- | [<- | [<- | [<- | [<- | []]]]]] ->;
    repeat match goal with
           | |- context [match dict_get ?x d with _ => _ end] =>
               destruct (dict_get x d)
           | |- context [match as_str ?x with _ => _ end] => destruct (as_str x)
           | |- context [match as_str_list ?x with _ => _ end] =>
               destruct (as_str_list x)
           end; reflexivity.
Qed.

Lemma validate_level (r : json) (m : EventExplanation) :
  validate r = Some m ->
  field "customer_impact_level" r = Some (JStr (customer_impact_level m)).
Proof.
  destruct r as [| | | | | | d]; try discriminate.
  unfold validate, required. cbn [field].
  destruct (dict_get "customer_impact_level" d) as [v|].
  - destruct v as [| | | | s | |]; cbn [as_str];
      repeat match goal with
             | |- context [match dict_get ?x d with _ => _ end] =>
                 destruct (dict_get x d)
             | |- context [match as_str ?x with _ => _ end] => destruct (as_str x)
             | |- context [match as_str_list ?x with _ => _ end] =>
                 destruct (as_str_list x)
             end; try discriminate; now intros [= <-].
  - repeat match goal with
           | |- context [match dict_get ?x d with _ => _ end] =>
               destruct (dict_get x d)
           | |- context [match as_str ?x with _ => _ end] => destruct (as_str x)
           | |- context [match as_str_list ?x with _ => _ end] =>
               destruct (as_str_list x)
           end; discriminate.
Qed.

End MoreFacts.

Import Route RouteExamples MoreFacts.

(* ------------------------------------------------------------------ *)
(** *** X1: when the analyzer raises *)

(** X1: the analyzer raises in exactly two cases: [AttributeError] when the
    event is not an object, or its [data] or [data.object] is present and
    not an object (the extraction, before the [try]); [TypeError] when the
    [try] body fails and the event's [type] is null, a boolean or a number
    (the [in] tests of the handler).  In every other case it returns. *)
Theorem analyzer_raises_exactly
    (json_loads : string -> option json) (key : option string)
    (client_post : request -> http_outcome) (event : json) (x : exn) :
  snd (analyze_stripe_event json_loads key client_post event) = Raise x <->
  (extractable event = false /\ x = AttributeError) \/
  (extractable event = true /\
   raises (llm_outcome json_loads key client_post event) = true /\
   iterable (type_of event) = false /\ x = TypeError).
Proof.
  destruct (extractable event) eqn:S.
  - rewrite (analyze_shaped _ _ _ _ S). cbn [snd].
    destruct (llm_outcome json_loads key client_post event) as [r|e];
      cbn [try_except raises].
    + split; [discriminate|]. intros [[D _] | (_ & D & _)]; discriminate D.
    + destruct (iterable (type_of event)) eqn:I.
      * destruct (fallback_response_iterable _ I) as [r ->].
        split; [discriminate|]. intros [[D _] | (_ & _ & D & _)]; discriminate D.
      * rewrite (fallback_response_scalar _ I). split.
        -- intros [= <-]. right. repeat split.
        -- intros [[D _] | (_ & _ & _ & ->)]; [discriminate D | reflexivity].
  - rewrite (analyze_unshaped _ _ _ _ S). cbn [snd]. split.
    + intros [= <-]. left. now split.
    + intros [[_ ->] | (D & _)]; [reflexivity | discriminate D].
Qed.

(* ------------------------------------------------------------------ *)
(** *** X2: the requests that are sent *)

(** X2: one analysis sends the request built from the event exactly once
    when the extraction succeeds and a key is configured, and sends nothing
    otherwise; what the service answers never causes a second request. *)
Theorem requests_sent
    (json_loads : string -> option json) (key : option string)
    (client_post : request -> http_outcome) (event : json) :
  fst (analyze_stripe_event json_loads key client_post event)
  = (if extractable event && negb (key_missing key)
     then [request_for key event] else []) /\
  (List.length (fst (analyze_stripe_event json_loads key client_post event)) <= 1)%nat.
Proof.
  destruct (extractable event) eqn:S.
  - rewrite (analyze_shaped _ _ _ _ S). cbn [fst]. unfold call_service.
    destruct (key_missing key); cbn; split; auto.
  - rewrite (analyze_unshaped _ _ _ _ S). cbn. split; auto.
Qed.

(* ------------------------------------------------------------------ *)
(** *** X3: normalizing twice *)

(** X3: the normalization of the impact level is idempotent: a value it
    returns is returned unchanged when normalized again. *)
Theorem normalize_impact_idempotent (parsed r : json) :
  normalize_impact parsed = Ok r -> normalize_impact r = Ok r.
Proof.
  intros H. destruct parsed as [| | | | s | items | d]; try discriminate H.
  - unfold normalize_impact in *. cbn [py_in bind] in *.
    destruct (contains _ s) eqn:C; [discriminate H|].
    injection H as <-. cbn [py_in bind]. now rewrite C.
  - unfold normalize_impact in *. cbn [py_in bind] in *.
    destruct (existsb _ items) eqn:C; [discriminate H|].
    injection H as <-. cbn [py_in bind]. now rewrite C.
  - destruct (dict_get "customer_impact_level" d) as [v|] eqn:G.
    + destruct v as [| | | | s | |];
        try (rewrite (normalize_not_text d _ G) in H by reflexivity; discriminate H).
      rewrite (normalize_text d s G) in H. injection H as <-.
      rewrite (normalize_text _ (normalized_level s))
        by apply dict_get_set_same.
      now rewrite dict_set_set, normalized_level_twice.
    + rewrite (normalize_absent d G) in H. injection H as <-.
      now apply normalize_absent.
Qed.

(** X3 on an object whose level is in upper case *)
Lemma normalize_impact_idempotent_witness :
  normalize_impact (JObj [("customer_impact_level", JStr "HIGH")])
    = Ok (JObj [("customer_impact_level", JStr "high")]) /\
  normalize_impact (JObj [("customer_impact_level", JStr "high")])
    = Ok (JObj [("customer_impact_level", JStr "high")]).
Proof.
  split; [reflexivity|].
  apply (normalize_impact_idempotent
           (JObj [("customer_impact_level", JStr "HIGH")])).
  reflexivity.
Defined.

(* ------------------------------------------------------------------ *)
(** *** X4: cleaning twice *)

(** X4: the cleanup of the model's content is idempotent: cleaning an
    already cleaned content changes nothing. *)
Theorem clean_text_idempotent (content : string) :
  clean_text (clean_text content) = clean_text content.
Proof.
  rewrite (clean_text_plain (clean_text content))
    by apply clean_text_no_fence.
  unfold clean_text. apply strip_twice.
Qed.

(* ------------------------------------------------------------------ *)
(** *** X5: a model output that is not an object *)

(** X5: when the cleaned content decodes to a JSON value that is not an
    object, the analyzer returns that value as it is if it is an array
    without the element ["customer_impact_level"] or a string without that
    substring; in every other case (null, a boolean, a number, an array or
    a string that holds the key) the result is that of the fallback. *)
Theorem non_object_output
    (json_loads : string -> option json) (key : option string)
    (client_post : request -> http_outcome) (event parsed : json) :
  extractable event = true ->
  model_output json_loads key client_post event = Ok parsed ->
  is_obj parsed = false ->
  (py_in "customer_impact_level" parsed = Ok false ->
   snd (analyze_stripe_event json_loads key client_post event) = Ok parsed) /\
  (py_in "customer_impact_level" parsed <> Ok false ->
   snd (analyze_stripe_event json_loads key client_post event)
   = fallback_response (type_of event)).
Proof.
  intros S M O.
  pose proof (llm_outcome_normalizes json_loads key client_post event) as N.
  rewrite M in N. cbn [bind] in N. unfold normalize_impact in N.
  destruct (py_in "customer_impact_level" parsed) as [[|]|e] eqn:P;
    cbn [bind] in N.
  - assert (R : llm_outcome json_loads key client_post event = Raise TypeError).
    { rewrite N. destruct parsed; try discriminate P; try discriminate O;
        reflexivity. }
    split; [discriminate|]. intros _. now apply (analyze_failure _ _ _ _ TypeError).
  - split; [|congruence]. intros _. now apply analyze_success.
  - split; [discriminate|]. intros _. now apply (analyze_failure _ _ _ _ e).
Qed.

(** X5 on an answer that is a JSON array *)
Lemma non_object_output_witness :
  extractable ping_event = true /\
  snd (analyze_stripe_event Json.loads test_key (answering array_body) ping_event)
    = Ok (JList [JInt 1; JInt 2]).
Proof.
  split; [reflexivity|].
  apply (non_object_output Json.loads test_key (answering array_body)
           ping_event (JList [JInt 1; JInt 2]));
    try reflexivity; vm_compute; reflexivity.
Defined.

(* ------------------------------------------------------------------ *)
(** *** X6: a high impact survives any extension of the type *)

(** X6: if the fallback classifies an event type as ["high"], it classifies
    as ["high"] every event type that contains it. *)
Theorem high_impact_upward_closed (event_type before after : string) :
  fallback_impact (JStr event_type) = Ok "high" ->
  fallback_impact (JStr (before ++ event_type ++ after)) = Ok "high".
Proof.
  rewrite !fallback_impact_text. unfold classify.
  assert (X : forall n, contains n event_type = true ->
                        contains n (before ++ event_type ++ after) = true).
  { intros n C. now apply contains_append_r, contains_append_l. }
  destruct (contains "payment_failed" event_type) eqn:A.
  - intros _. now rewrite (X _ A).
  - destruct (contains "dispute" event_type) eqn:B.
    + intros _. rewrite (X _ B).
      now destruct (contains "payment_failed" (before ++ event_type ++ after)).
    + destruct (contains "invoice.upcoming" event_type); discriminate.
Qed.

(** X6 on a dispute type with a prefix and a suffix *)
Lemma high_impact_upward_closed_witness :
  fallback_impact (JStr "dispute") = Ok "high" /\
  fallback_impact (JStr ("charge." ++ "dispute" ++ ".created")) = Ok "high".
Proof.
  split; [reflexivity|].
  apply (high_impact_upward_closed "dispute" "charge." ".created").
  reflexivity.
Defined.

(* ------------------------------------------------------------------ *)
(** *** The route *)

Lemma explain_event_decoded
    (json_loads : string -> option json) (decode_failure : string -> exn)
    (key : option string)
    (client_post : request -> http_outcome) (body : string) (event : json) :
  json_loads body = Some event ->
  explain_event json_loads decode_failure key client_post body
  = (fst (analyze_stripe_event json_loads key client_post event),
     respond (snd (analyze_stripe_event json_loads key client_post event))).
Proof.
  intros L. unfold explain_event. rewrite L.
  now destruct (analyze_stripe_event json_loads key client_post event).
Qed.

Lemma respond_cases (outcome : py json) :
  (exists e, outcome = Raise e /\ respond outcome = Unhandled e) \/
  (exists r, outcome = Ok r /\ validate r = None /\
             respond outcome = ResponseValidationError) \/
  (exists r m, outcome = Ok r /\ validate r = Some m /\
               respond outcome = Success (serialize m)).
Proof.
  destruct outcome as [r|e]; cbn [respond].
  - destruct (validate r) as [m|] eqn:V.
    + right. right. now exists r, m.
    + right. left. now exists r.
  - left. now exists e.
Qed.



(** X8: for a body that decodes to a webhook event the route never fails
    with an exception of the analyzer and never answers 400: it answers 200
    with the fields of the response model, or the returned value fails the
    response model; and whenever the [try] body fails the answer is 200
    with exactly the fallback object. *)
Theorem webhook_body_reply
    (json_loads : string -> option json) (decode_failure : string -> exn)
    (key : option string)
    (client_post : request -> http_outcome) (body : string) (event : json)
    (s : string) :
  json_loads body = Some event ->
  WebhookEvent event ->
  type_of event = JStr s ->
  ((exists m, snd (explain_event json_loads decode_failure key client_post body)
              = Success (serialize m)) \/
   snd (explain_event json_loads decode_failure key client_post body)
   = ResponseValidationError) /\
  (raises (llm_outcome json_loads key client_post event) = true ->
   snd (explain_event json_loads decode_failure key client_post body)
   = Success (fallback_for s)).
Proof.
  intros L W T. pose proof (webhook_event_shaped _ W) as S.
  rewrite (explain_event_decoded _ decode_failure _ _ _ _ L). cbn [snd].
  rewrite (analyze_shaped _ _ _ _ S). cbn [snd].
  destruct (llm_outcome json_loads key client_post event) as [r|e];
    cbn [try_except raises].
  - split; [|discriminate]. cbn [respond].
    destruct (validate r) as [m|]; [left; now exists m | now right].
  - rewrite T, fallback_response_text.
    split; [left; eexists; reflexivity | reflexivity].
Qed.

(** X8 on the ping event with the service unreachable *)
Lemma webhook_body_reply_witness :
  Json.loads ping_body = Some ping_event /\
  WebhookEvent ping_event /\
  snd (explain_event Json.loads malformed_text test_key unreachable ping_body)
    = Success (fallback_for "ping").
Proof.
  split; [reflexivity|]. split; [reflexivity|].
  apply (webhook_body_reply Json.loads malformed_text test_key unreachable ping_body
           ping_event "ping"); reflexivity.
Defined.

(** X9: every 200 answer of the route carries exactly the five fields of
    the response model, in the order of the class, and its
    [customer_impact_level] is one of ["low"], ["medium"], ["high"]. *)
Theorem success_reply_shape
    (json_loads : string -> option json) (decode_failure : string -> exn)
    (key : option string)
    (client_post : request -> http_outcome) (body : string) (out : json) :
  snd (explain_event json_loads decode_failure key client_post body) = Success out ->
  exists m,
    out = serialize m /\
    match out with JObj d => dict_keys d | _ => [] end = field_names /\
    field "customer_impact_level" out = Some (JStr (customer_impact_level m)) /\
    in_list (customer_impact_level m) impact_levels = true.
Proof.
  destruct (json_loads body) as [event|] eqn:L.
  - rewrite (explain_event_decoded _ decode_failure _ _ _ _ L). cbn [snd].
    destruct (respond_cases
                (snd (analyze_stripe_event json_loads key client_post event)))
      as [(e & _ & ->) | [(r & _ & _ & ->) | (r & m & A & V & ->)]];
      try discriminate.
    intros [= <-]. exists m. repeat split.
    rewrite <- in_strs_levels.
    apply (analyze_level_valid _ _ _ _ r _ A), validate_level, V.
  - unfold explain_event. rewrite L.
    destruct (decode_failure body); discriminate.
Qed.

(** X9 on a full answer of the model with an extra key *)
Lemma success_reply_shape_witness :
  exists out,
    snd (explain_event Json.loads malformed_text test_key (answering full_answer_content)
           ping_body) = Success out /\
    match out with JObj d => dict_keys d | _ => [] end = field_names /\
    field "customer_impact_level" out = Some (JStr "low").
Proof.
  assert (R : snd (explain_event Json.loads malformed_text test_key
                     (answering full_answer_content) ping_body)
              = Success
                  (JObj [("event_type", JStr "ping"); ("summary", JStr "A ping");
                         ("root_cause", JStr "none");
                         ("customer_impact_level", JStr "low");
                         ("recommended_actions", JList [JStr "Nothing"])]))
    by (vm_compute; reflexivity).
  eexists. split; [exact R|].
  destruct (success_reply_shape Json.loads malformed_text test_key
              (answering full_answer_content) ping_body _ R)
    as (m & _ & K & _).
  split; [exact K | reflexivity].
Defined.

(** X10: when the model's answer decodes to an object whose level is
    absent or a string, and the object lacks one of the five fields of the
    response model, the value returned by the analyzer fails the response
    model: the route does not answer 200. *)
Theorem missing_field_fails_response_model
    (json_loads : string -> option json) (decode_failure : string -> exn)
    (key : option string)
    (client_post : request -> http_outcome) (body : string) (event : json)
    (d : dict) (k : string) :
  json_loads body = Some event ->
  extractable event = true ->
  model_output json_loads key client_post event = Ok (JObj d) ->
  absent_or is_str (dict_get "customer_impact_level" d) = true ->
  In k field_names ->
  dict_get k d = None ->
  snd (explain_event json_loads decode_failure key client_post body) = ResponseValidationError.
Proof.
  intros L S M A K G.
  rewrite (explain_event_decoded _ decode_failure _ _ _ _ L). cbn [snd].
  pose proof (llm_outcome_normalizes json_loads key client_post event) as N.
  rewrite M in N. cbn [bind] in N.
  destruct (dict_get "customer_impact_level" d) as [v|] eqn:C.
  - destruct v as [| | | | s | |]; try discriminate A.
    rewrite (normalize_text d s C) in N.
    rewrite (analyze_success _ _ _ _ _ S N). cbn [respond].
    rewrite (validate_missing _ k K); [reflexivity|].
    rewrite dict_get_set_other; [exact G | congruence].
  - rewrite (normalize_absent d C) in N.
    rewrite (analyze_success _ _ _ _ _ S N). cbn [respond].
    now rewrite (validate_missing _ k K G).
Qed.

(** X10 on an answer that holds a summary only *)
Lemma missing_field_fails_response_model_witness :
  Json.loads ping_body = Some ping_event /\
  snd (explain_event Json.loads malformed_text test_key (answering no_level_content) ping_body)
    = ResponseValidationError.
Proof.
  split; [reflexivity|].
  apply (missing_field_fails_response_model Json.loads malformed_text test_key
           (answering no_level_content) ping_body ping_event
           [("summary", JStr "Card declined")] "event_type");
    try reflexivity; try (vm_compute; reflexivity).
  cbn. auto.
Defined.

(** X11: a body that is valid JSON but not an object, or whose [data] or
    [data.object] is present and not an object, makes the route fail with
    the analyzer's [AttributeError] instead of a 400, and no request is
    sent. *)
Theorem unshaped_body_unhandled
    (json_loads : string -> option json) (decode_failure : string -> exn)
    (key : option string)
    (client_post : request -> http_outcome) (body : string) (event : json) :
  json_loads body = Some event ->
  is_obj event = false \/ extractable event = false ->
  explain_event json_loads decode_failure key client_post body = ([], Unhandled AttributeError).
Proof.
  intros L H.
  assert (U : extractable event = false).
  { destruct H as [O|U]; [|exact U]. now destruct event. }
  rewrite (explain_event_decoded _ decode_failure _ _ _ _ L).
  now rewrite (analyze_unshaped _ _ _ _ U).
Qed.

(** X11 on a body that is a JSON array *)
Lemma unshaped_body_unhandled_witness :
  Json.loads array_body = Some (JList [JInt 1; JInt 2]) /\
  explain_event Json.loads malformed_text test_key unreachable array_body
    = ([], Unhandled AttributeError).
Proof.
  split; [reflexivity|].
  apply (unshaped_body_unhandled Json.loads malformed_text test_key unreachable array_body
           (JList [JInt 1; JInt 2])); [reflexivity | now left].
Defined.

Lemma as_strs_inverse (items : list json) (strs : list string) :
  as_strs items = Some strs -> map JStr strs = items.
Proof.
  revert strs. induction items as [|x items IH]; intros strs; cbn [as_strs].
  - now intros [= <-].
  - destruct x as [| | | | s | |]; cbn [as_str]; try discriminate.
    destruct (as_strs items) as [ss|]; [|discriminate].
    intros [= <-]. cbn [map]. now rewrite (IH ss eq_refl).
Qed.

Lemma serialize_keeps_fields (r : json) (m : EventExplanation) (k : string) :
  validate r = Some m -> In k field_names ->
  field k (serialize m) = field k r.
Proof.
  destruct r as [| | | | | | d]; try discriminate.
  unfold validate, required. cbn [field].
  destruct (dict_get "event_type" d) as [[| | | | t | |]|] eqn:G1;
    cbn [as_str]; try discriminate.
  destruct (dict_get "summary" d) as [[| | | | s | |]|] eqn:G2;
    cbn [as_str]; try discriminate.
  destruct (dict_get "root_cause" d) as [[| | | | c | |]|] eqn:G3;
    cbn [as_str]; try discriminate.
  destruct (dict_get "customer_impact_level" d) as [[| | | | l | |]|] eqn:G4;
    cbn [as_str]; try discriminate.
  destruct (dict_get "recommended_actions" d) as [[| | | | | items |]|] eqn:G5;
    cbn [as_str_list]; try discriminate.
  destruct (as_strs items) as [acts|] eqn:A; [|discriminate].
  rewrite <- (as_strs_inverse _ _ A) in G5.
  intros [= <-]. unfold field_names. cbn [In].
  intros [<- | [<- | [<- | [<- | [<- | []]]]]];
    cbn [serialize field dict_get String.eqb Ascii.eqb Bool.eqb
         event_type summary root_cause customer_impact_level
         recommended_actions];
    symmetry; assumption.
Qed.

(** X12: a 200 answer of the route holds, for each of the five fields of
    the response model, the value that the analyzer returned for it; the
    route changes no value, and the other keys of the analyzer's result are
    left out. *)
Theorem success_reply_keeps_fields
    (json_loads : string -> option json) (decode_failure : string -> exn)
    (key : option string)
    (client_post : request -> http_outcome) (body : string) (out : json) :
  snd (explain_event json_loads decode_failure key client_post body) = Success out ->
  exists event r,
    json_loads body = Some event /\
    snd (analyze_stripe_event json_loads key client_post event) = Ok r /\
    (forall k, In k field_names -> field k out = field k r) /\
    (forall k, ~ In k field_names -> field k out = None).
Proof.
  destruct (json_loads body) as [event|] eqn:L.
  - rewrite (explain_event_decoded _ decode_failure _ _ _ _ L). cbn [snd].
    destruct (respond_cases
                (snd (analyze_stripe_event json_loads key client_post event)))
      as [(e & _ & ->) | [(r & _ & _ & ->) | (r & m & A & V & ->)]];
      try discriminate.
    intros [= <-]. exists event, r. split; [reflexivity|]. split; [exact A|].
    split.
    + intros k K. now apply serialize_keeps_fields.
    + intros k K. unfold field_names in K. cbn [In] in K.
      cbn [serialize field dict_get].
      repeat match goal with
             | |- context [String.eqb k ?x] =>
                 destruct (String.eqb_spec k x) as [->|_];
                 [exfalso; apply K; auto 10|]
             end.
      reflexivity.
  - unfold explain_event. rewrite L.
    destruct (decode_failure body); discriminate.
Qed.

(** X12 on a full answer of the model with an extra key *)
Lemma success_reply_keeps_fields_witness :
  exists out,
    snd (explain_event Json.loads malformed_text test_key (answering full_answer_content)
           ping_body) = Success out /\
    field "summary" out = Some (JStr "A ping") /\
    field "confidence" out = None.
Proof.
  assert (R : snd (explain_event Json.loads malformed_text test_key
                     (answering full_answer_content) ping_body)
              = Success
                  (JObj [("event_type", JStr "ping"); ("summary", JStr "A ping");
                         ("root_cause", JStr "none");
                         ("customer_impact_level", JStr "low");
                         ("recommended_actions", JList [JStr "Nothing"])]))
    by (vm_compute; reflexivity).
  eexists. split; [exact R|].
  destruct (success_reply_keeps_fields Json.loads malformed_text test_key
              (answering full_answer_content) ping_body _ R)
    as (event & r & _ & _ & _ & D).
  split; [reflexivity|]. apply D. cbn. intuition discriminate.
Defined.
